(** * laser-metrics: the telemetry pipeline of the Laser Sensor Monitor

    A shallow embedding of the code of the repository:

    - [app/components/ControlPanel.vue], the start / stop / statistics panel;
    - [app/components/MetricsDisplay.vue], the display that regenerates its
      metrics on an interval timer;
    - [stores/sensor.ts] and [composables/useSensorMonitor.ts], the Pinia
      store and the composable as [docs/PROJECT.md] gives them;

    followed by the properties of the specification, each one proved or
    refuted on these definitions.

    Numbers.  A JavaScript [number] is a double (IEEE 754 binary64).  A
    finite double is modelled by the rational it denotes ([Q]), and every
    product and sum of the display by the exact result rounded to the
    nearest double, ties to even ([Double.round]).  Instants are
    milliseconds ([Z]); the ISO text of a timestamp is not modelled. *)

From Stdlib Require Import ZArith QArith Qround Qminmax Qreduction Lqa Lia String Sorted.
From stdpp Require Import base list.

(* ===================================================================== *)
(** * The Pinia store: [stores/sensor.ts]                                 *)
(* ===================================================================== *)

Module SensorStore.

(** [SensorReading], with the fields of the backend struct of
    [docs/PROJECT.md]. *)
Record SensorReading : Type := {
  timestamp : Z;
  distance_mm : Q;
  temperature : Q;
  intensity : Z;
  processing_time_ms : Z
}.

(** The two refs of the store. *)
Record Store : Type := {
  readings : list SensorReading;
  isMonitoring : bool
}.

Definition init : Store := {| readings := []; isMonitoring := false |}.

(** [readings.value[readings.value.length - 1]]: [undefined] on the empty
    array. *)
Definition latestReading (s : Store) : option SensorReading :=
  last (readings s).

Definition readingCount (s : Store) : nat := length (readings s).

(** [Array.prototype.shift]: drops the element of index 0. *)
Definition shift {A : Type} (l : list A) : list A := drop 1 l.

(** [addReading]: push, then one [shift] when the length exceeds 100. *)
Definition addReading (reading : SensorReading) (s : Store) : Store :=
  let pushed := readings s ++ [reading] in
  {| readings := if (100 <? length pushed)%nat then shift pushed else pushed;
     isMonitoring := isMonitoring s |}.

Definition setMonitoring (status : bool) (s : Store) : Store :=
  {| readings := readings s; isMonitoring := status |}.

(** The readings of a list of ["sensor-data"] events delivered in order. *)
Definition addReadings (rs : list SensorReading) (s : Store) : Store :=
  foldl (fun acc r => addReading r acc) s rs.

(** A numbered sample reading, for concrete runs. *)
Definition sample (i : nat) : SensorReading :=
  {| timestamp := Z.of_nat i * 100; distance_mm := inject_Z (Z.of_nat i);
     temperature := 22; intensity := 1000; processing_time_ms := 50 |}.

End SensorStore.

(* ===================================================================== *)
(** * The composable: [composables/useSensorMonitor.ts]                   *)
(* ===================================================================== *)

Module UseSensorMonitor.
Import SensorStore.

(** How the promise of [invoke(...)] settles.  The commands themselves run
    in the backend and return [Result<(), String>]; the composable only
    sees the outcome. *)
Inductive Outcome : Type :=
| Resolved
| Rejected (message : string).

(** [await invoke('start_monitoring'); sensorStore.setMonitoring(true)]:
    a rejected [invoke] throws at the [await], and the store is not
    touched. *)
Definition startMonitoring (invoke : Outcome) (s : Store) : Store * Outcome :=
  match invoke with
  | Resolved => (setMonitoring true s, Resolved)
  | Rejected e => (s, Rejected e)
  end.

Definition stopMonitoring (invoke : Outcome) (s : Store) : Store * Outcome :=
  match invoke with
  | Resolved => (setMonitoring false s, Resolved)
  | Rejected e => (s, Rejected e)
  end.

(** The listener installed by [setupEventListener] for ["sensor-data"]. *)
Definition onSensorData (payload : SensorReading) (s : Store) : Store :=
  addReading payload s.

End UseSensorMonitor.

(* ===================================================================== *)
(** * [app/components/ControlPanel.vue]                                   *)
(* ===================================================================== *)

Module ControlPanel.

(** [defineEmits(['start', 'stop', 'show-stats'])] *)
Inductive Emit : Type := EmitStart | EmitStop | EmitShowStats.

(** The two refs of the component. *)
Record Refs : Type := {
  isMonitoring : bool;
  hasData : bool
}.

(** [ref(false)], [ref(false)] *)
Definition setup : Refs := {| isMonitoring := false; hasData := false |}.

Definition set_isMonitoring (b : bool) (p : Refs) : Refs :=
  {| isMonitoring := b; hasData := hasData p |}.

Definition set_hasData (b : bool) (p : Refs) : Refs :=
  {| isMonitoring := isMonitoring p; hasData := b |}.

(** A handler returns the refs it leaves and the events it emitted, in
    order. *)
Definition Handler : Type := Refs -> Refs * list Emit.

Definition startMonitoring : Handler := fun p =>
  let p := set_isMonitoring true p in
  let p := set_hasData true p in
  (p, [EmitStart]).

Definition stopMonitoring : Handler := fun p =>
  let p := set_isMonitoring false p in
  (p, [EmitStop]).

Definition showStatistics : Handler := fun p => (p, [EmitShowStats]).

(** The three buttons of the template. *)
Inductive Button : Type := StartButton | StopButton | StatisticsButton.

Definition onClick (b : Button) : Handler :=
  match b with
  | StartButton => startMonitoring
  | StopButton => stopMonitoring
  | StatisticsButton => showStatistics
  end.

(** The value bound to the [disable] attribute of a button.  The template
    binds [disable], not the HTML attribute [disabled], so a click always
    reaches its handler. *)
Definition disable (b : Button) (p : Refs) : bool :=
  match b with
  | StartButton => isMonitoring p
  | StopButton => negb (isMonitoring p)
  | StatisticsButton => negb (hasData p)
  end.

(** A sequence of clicks, threading the refs and collecting the events. *)
Fixpoint clicks (bs : list Button) (p : Refs) : Refs * list Emit :=
  match bs with
  | [] => (p, [])
  | b :: bs' =>
      let '(p1, out1) := onClick b p in
      let '(p2, out2) := clicks bs' p1 in
      (p2, out1 ++ out2)
  end.

(** The monitoring state shown by the panel. *)
Inductive MonitoringState : Type := Stopped | Running.

Definition state (p : Refs) : MonitoringState :=
  if isMonitoring p then Running else Stopped.

End ControlPanel.

(* ===================================================================== *)
(** * The arithmetic of doubles                                           *)
(* ===================================================================== *)

Module Double.

(** binary64: 53 bits of precision, normal exponents from -1022. *)
Definition prec : Z := 53.
Definition emin : Z := -1022.

(** The integer nearest to [n / d], for [d] positive; a tie goes to the even
    one. *)
Definition nearest_even (n d : Z) : Z :=
  let q := (n / d)%Z in
  match (2 * (n mod d) ?= d)%Z with
  | Lt => q
  | Gt => (q + 1)%Z
  | Eq => if Z.even q then q else (q + 1)%Z
  end.

(** The exponent of [n / d], for [n] and [d] positive: the [e] with
    [2 ^ e <= n / d < 2 ^ (e + 1)]. *)
Definition ilog2 (n d : Z) : Z :=
  let e0 := (Z.log2 n - Z.log2 d)%Z in
  if (if 0 <=? e0 then d * 2 ^ e0 <=? n else d <=? n * 2 ^ (- e0))%Z
  then e0 else (e0 - 1)%Z.

(** The double nearest to [n / d], for [n] and [d] positive: with [e] the
    exponent (at least [emin], below which doubles are subnormal), the
    nearest multiple of [2 ^ (e - 52)]. *)
Definition round_pos (n d : Z) : Q :=
  let e := Z.max emin (ilog2 n d) in
  let s := (prec - 1 - e)%Z in
  if (0 <=? s)%Z
  then Qmake (nearest_even (n * 2 ^ s) d) (Z.to_pos (2 ^ s))
  else inject_Z (nearest_even n (d * 2 ^ (- s)) * 2 ^ (- s)).

(** Rounding to the nearest double, ties to even.  Overflow to an infinity
    (from [2 ^ 1024] on) is not modelled: the values of the display stay
    below 128. *)
Definition round (x : Q) : Q :=
  Qred match Qnum x with
       | Z0 => 0
       | Zpos _ => round_pos (Qnum x) (Zpos (Qden x))
       | Zneg _ => Qopp (round_pos (- Qnum x) (Zpos (Qden x)))
       end.

(** [x * y] and [x + y] on doubles. *)
Definition mul (x y : Q) : Q := round (x * y).
Definition add (x y : Q) : Q := round (x + y).

(** [Math.floor(x)]: exact. *)
Definition floor (x : Q) : Q := inject_Z (Qfloor x).

(** The rationals that are doubles. *)
Definition is_double (x : Q) : Prop := round x == x.

(** The largest double below 1: [1 - 2 ^ - 53]. *)
Definition below_one : Q := 9007199254740991 # 9007199254740992.

(** The double written [0.03]. *)
Definition three_hundredths : Q := 1080863910568919 # 36028797018963968.

End Double.

Arguments Double.round : simpl never.
Arguments Double.mul : simpl never.
Arguments Double.add : simpl never.
Arguments Double.floor : simpl never.

(* ===================================================================== *)
(** * The browser primitives the display uses                             *)
(* ===================================================================== *)

Module Browser.

(** The functions handed to [setInterval]: the code has one. *)
Inductive Callback : Type := UpdateMetrics.

(** An interval timer: its handle, its period and the instant of its next
    firing, in milliseconds. *)
Record Timer : Type := {
  handle : Z;
  period : Z;
  due : Z;
  callback : Callback
}.

(** The environment: the clock, the values [Math.random()] returns in
    order with the number already drawn, and the table of timers. *)
Record Env : Type := {
  clock : Z;
  random : nat -> Q;
  drawn : nat;
  timers : list Timer;
  nextHandle : Z
}.

(** Computations over the environment. *)
Definition M (A : Type) : Type := Env -> A * Env.

Definition ret {A : Type} (a : A) : M A := fun e => (a, e).

Definition bind {A B : Type} (m : M A) (k : A -> M B) : M B :=
  fun e => let '(a, e1) := m e in k a e1.

Definition eval {A : Type} (m : M A) (e : Env) : A := fst (m e).

Declare Scope browser_scope.
Delimit Scope browser_scope with browser.
Notation "'let*' x ':=' m 'in' k" := (bind m (fun x => k))
  (at level 10, x name, m at level 100, k at level 200) : browser_scope.

(** The values of [Math.random()] are doubles in the interval from 0
    (included) to 1 (excluded). *)
Definition unit_interval (rnd : nat -> Q) : Prop :=
  forall n : nat, Double.is_double (rnd n) /\ (0 <= rnd n /\ rnd n < 1)%Q.

(** A random source that always returns one half, for concrete runs. *)
Definition half : nat -> Q := fun _ => (1 # 2)%Q.

(** [Math.random()] *)
Definition Math_random : M Q := fun e =>
  (random e (drawn e),
   {| clock := clock e; random := random e; drawn := S (drawn e);
      timers := timers e; nextHandle := nextHandle e |}).

(** [new Date()], as an instant. *)
Definition Date_now : M Z := fun e => (clock e, e).

(** [setInterval(cb, delay)]: first firing one period from now, then every
    period.  A delay below one millisecond is taken as one; the code only
    passes 1000. *)
Definition setInterval (cb : Callback) (delay : Z) : M Z := fun e =>
  let p := Z.max 1 delay in
  (nextHandle e,
   {| clock := clock e; random := random e; drawn := drawn e;
      timers := timers e ++
                [{| handle := nextHandle e; period := p;
                    due := clock e + p; callback := cb |}];
      nextHandle := nextHandle e + 1 |}).

(** [clearInterval(id)]: removes the timer of that handle; a handle that
    names no timer, or [undefined], changes nothing. *)
Definition clearInterval (id : option Z) : M unit := fun e =>
  (tt,
   match id with
   | None => e
   | Some h =>
       {| clock := clock e; random := random e; drawn := drawn e;
          timers := List.filter (fun t => negb (handle t =? h)%Z) (timers e);
          nextHandle := nextHandle e |}
   end).

(** A page just loaded at instant [t0]. *)
Definition fresh (rnd : nat -> Q) (t0 : Z) : Env :=
  {| clock := t0; random := rnd; drawn := 0; timers := []; nextHandle := 1 |}.

Definition set_clock (t : Z) (e : Env) : Env :=
  {| clock := t; random := random e; drawn := drawn e;
     timers := timers e; nextHandle := nextHandle e |}.

Definition set_timers (ts : list Timer) (e : Env) : Env :=
  {| clock := clock e; random := random e; drawn := drawn e;
     timers := ts; nextHandle := nextHandle e |}.

(** The timer that fires next: the earliest due, the first registered
    among equals. *)
Definition earliest (ts : list Timer) : option Timer :=
  foldr (fun t acc =>
           match acc with
           | None => Some t
           | Some u => if (due t <=? due u)%Z then Some t else Some u
           end) None ts.

(** After a firing, the timer is due one period later. *)
Definition reschedule (t : Timer) (ts : list Timer) : list Timer :=
  map (fun u =>
         if (handle u =? handle t)%Z
         then {| handle := handle u; period := period u;
                 due := due u + period u; callback := callback u |}
         else u) ts.

(** The number of firings of the timers [ts] up to the instant [target]. *)
Definition pending (target : Z) (ts : list Timer) : nat :=
  foldr (fun t n => (Z.to_nat ((target - due t) / period t + 1) + n)%nat) 0%nat ts.

End Browser.

(* ===================================================================== *)
(** * [app/components/MetricsDisplay.vue]                                 *)
(* ===================================================================== *)

Module MetricsDisplay.
Import Browser.
Local Open Scope browser_scope.

(** [interface SensorMetrics] *)
Record SensorMetrics : Type := {
  laserIntensity : Q;
  temperature : Q;
  measurementRate : Q;
  timestamp : Z
}.

(** The state of the component: the [metrics] ref and the variable
    [updateInterval], [undefined] until [onMounted] assigns it. *)
Record Display : Type := {
  metrics : SensorMetrics;
  updateInterval : option Z
}.

(** The setup of the component. *)
Definition setup : M Display :=
  let* now := Date_now in
  ret {| metrics := {| laserIntensity := 0; temperature := 25;
                       measurementRate := 10; timestamp := now |};
         updateInterval := None |}.

(** [updateInterval = setInterval(updateMetrics, 1000)] *)
Definition onMounted (d : Display) : M Display :=
  let* id := setInterval UpdateMetrics 1000 in
  ret {| metrics := metrics d; updateInterval := Some id |}.

(** [clearInterval(updateInterval)] *)
Definition onUnmounted (d : Display) : M Display :=
  let* _ := clearInterval (updateInterval d) in
  ret d.

(** [updateMetrics]: the fields of the object literal are evaluated in
    order, each [Math.random()] drawing a new value. *)
Definition updateMetrics (d : Display) : M Display :=
  let* r1 := Math_random in
  let* r2 := Math_random in
  let* r3 := Math_random in
  let* now := Date_now in
  ret {| metrics := {| laserIntensity := Double.floor (Double.mul r1 100);
                       temperature := Double.add 25 (Double.mul r2 10);
                       measurementRate := Double.add 5 (Double.mul r3 15);
                       timestamp := now |};
         updateInterval := updateInterval d |}.

(** The ranges of the simulated device in [docs/PROJECT.md]:
    temperature 20-25 degrees Celsius, laser intensity 500-2000 units. *)
Definition documented_temperature (x : Q) : Prop := (20 <= x /\ x <= 25)%Q.
Definition documented_intensity (x : Q) : Prop := (500 <= x /\ x <= 2000)%Q.

End MetricsDisplay.

(* ===================================================================== *)
(** * The page: both components and the event loop                        *)
(* ===================================================================== *)

Module App.
Import Browser.

(** Both components, the environment, and the events the panel emitted.
    The page that would listen to these events is not part of the
    components; they are recorded in order. *)
Record World : Type := {
  env : Env;
  display : MetricsDisplay.Display;
  panel : ControlPanel.Refs;
  emitted : list ControlPanel.Emit
}.

Definition with_env (e : Env) (w : World) : World :=
  {| env := e; display := display w; panel := panel w; emitted := emitted w |}.

(** Runs a handler of the display in the world. *)
Definition on_display
    (h : MetricsDisplay.Display -> M MetricsDisplay.Display) (w : World) : World :=
  let '(d, e) := h (display w) (env w) in
  {| env := e; display := d; panel := panel w; emitted := emitted w |}.

(** Runs a handler of the panel in the world. *)
Definition on_panel (h : ControlPanel.Handler) (w : World) : World :=
  let '(p, out) := h (panel w) in
  {| env := env w; display := display w; panel := p;
     emitted := emitted w ++ out |}.

(** The page loaded at instant [t0]: both components set up, nothing
    mounted yet. *)
Definition boot (rnd : nat -> Q) (t0 : Z) : World :=
  let '(d, e) := MetricsDisplay.setup (fresh rnd t0) in
  {| env := e; display := d; panel := ControlPanel.setup; emitted := [] |}.

Definition mount : World -> World := on_display MetricsDisplay.onMounted.
Definition unmount : World -> World := on_display MetricsDisplay.onUnmounted.

(** The function a timer calls. *)
Definition fire (cb : Callback) : World -> World :=
  match cb with
  | UpdateMetrics => on_display MetricsDisplay.updateMetrics
  end.

(** The event loop up to the instant [target]: while a timer is due, the
    clock moves to its instant, the timer is rescheduled and its callback
    runs. *)
Fixpoint run_due (fuel : nat) (target : Z) (w : World) : World :=
  match fuel with
  | O => w
  | S fuel' =>
      match earliest (timers (env w)) with
      | None => w
      | Some t =>
          if (due t <=? target)%Z then
            let e := set_clock (Z.max (clock (env w)) (due t)) (env w) in
            let e := set_timers (reschedule t (timers e)) e in
            run_due fuel' target (fire (callback t) (with_env e w))
          else w
      end
  end.

(** [ms] milliseconds pass. *)
Definition elapse (ms : Z) (w : World) : World :=
  let target := (clock (env w) + Z.max 0 ms)%Z in
  let w' := run_due (pending target (timers (env w))) target w in
  with_env (set_clock target (env w')) w'.

(** What happens to a mounted page. *)
Inductive Action : Type :=
| Click (b : ControlPanel.Button)
| Elapse (ms : Z).

Definition step (w : World) (a : Action) : World :=
  match a with
  | Click b => on_panel (ControlPanel.onClick b) w
  | Elapse ms => elapse ms w
  end.

Definition interact (acts : list Action) (w : World) : World :=
  foldl step w acts.

(** The number of ticks executed so far: each tick draws three values. *)
Definition ticks (w : World) : nat := (drawn (env w) / 3)%nat.

(** The timer of the display: handle [h], one firing every 1000
    milliseconds, the next one at the instant [next]. *)
Definition display_timer (h next : Z) : Timer :=
  {| handle := h; period := 1000; due := next; callback := UpdateMetrics |}.

(** The state of the page that the ticks leave alone. *)
Definition same_frame (w' w : World) : Prop :=
  random (env w') = random (env w) /\
  nextHandle (env w') = nextHandle (env w) /\
  panel w' = panel w /\
  emitted w' = emitted w /\
  MetricsDisplay.updateInterval (display w')
  = MetricsDisplay.updateInterval (display w).

(** A page whose display is mounted: its timer is the only one, its next
    firing is at most one period ahead, and [updateInterval] holds its
    handle. *)
Definition mounted (w : World) : Prop :=
  exists D : Z,
    timers (env w) = [display_timer 1 D] /\
    (clock (env w) < D <= clock (env w) + 1000)%Z /\
    MetricsDisplay.updateInterval (display w) = Some 1%Z.

(** One firing of the timer of the display at the instant [at_]. *)
Definition tick (h at_ : Z) (w : World) : World :=
  fire UpdateMetrics
    (with_env (set_timers [display_timer h (at_ + 1000)]
                 (set_clock (Z.max (clock (env w)) at_) (env w))) w).

End App.

(* ===================================================================== *)
(** * The statistics of the readings                                      *)
(* ===================================================================== *)

Module StatisticsAggregator.
Import SensorStore.

(** A summary: the count, and the aggregates of the distance, each absent
    ([None]) when there is nothing to aggregate. *)
Record Statistics : Type := {
  count : nat;
  mean : option Q;
  min : option Q;
  max : option Q;
  std_dev : option Q
}.

Definition sum (xs : list Q) : Q := foldr Qplus 0%Q xs.

Definition square (x : Q) : Q := (x * x)%Q.

Section Compute.

(** The square root of the number type. *)
Variable sqrt : Q -> Q.

(** Modelled from the spec: the statistics calculation ([calculate_statistics],
    behind the command [get_statistics]) belongs to the backend and is not
    among the sources.  Following section 4.3: on the empty input the count is
    0 and every aggregate is the explicit "undefined" marker; otherwise the
    count is the length, the mean the arithmetic mean, min and max the extrema,
    and the standard deviation the population one, computed in two passes
    (mean first, then the squared deviations). *)
Definition compute (readings : list SensorReading) : Statistics :=
  match map distance_mm readings with
  | [] =>
      {| count := 0; mean := None; min := None; max := None; std_dev := None |}
  | x :: xs =>
      let n := inject_Z (Z.of_nat (length (x :: xs))) in
      let m := (sum (x :: xs) / n)%Q in
      let deviations := map (fun y => square (y - m)%Q) (x :: xs) in
      {| count := length (x :: xs);
         mean := Some m;
         min := Some (foldr Qmin x xs);
         max := Some (foldr Qmax x xs);
         std_dev := Some (sqrt (sum deviations / n)%Q) |}
  end.

End Compute.

End StatisticsAggregator.

(* ===================================================================== *)
(** * Runs of the components                                              *)
(* ===================================================================== *)

Module Runs.
Import SensorStore UseSensorMonitor.

(** What a page does with the composable: it calls [startMonitoring] or
    [stopMonitoring] (the backend command settling one way or the other), or
    the listener receives a ["sensor-data"] event. *)
Inductive Call : Type :=
| CallStart (invoke : Outcome)
| CallStop (invoke : Outcome)
| SensorData (payload : SensorReading).

Definition call (s : Store) (c : Call) : Store :=
  match c with
  | CallStart invoke => fst (UseSensorMonitor.startMonitoring invoke s)
  | CallStop invoke => fst (UseSensorMonitor.stopMonitoring invoke s)
  | SensorData payload => onSensorData payload s
  end.

Definition calls (cs : list Call) (s : Store) : Store := foldl call s cs.

(** The readings delivered during a run, in order. *)
Definition payloads (cs : list Call) : list SensorReading :=
  flat_map (fun c => match c with SensorData r => [r] | _ => [] end) cs.

(** The event each button of the panel stands for. *)
Definition emitOf (b : ControlPanel.Button) : ControlPanel.Emit :=
  match b with
  | ControlPanel.StartButton => ControlPanel.EmitStart
  | ControlPanel.StopButton => ControlPanel.EmitStop
  | ControlPanel.StatisticsButton => ControlPanel.EmitShowStats
  end.

Definition isStatistics (b : ControlPanel.Button) : bool :=
  match b with ControlPanel.StatisticsButton => true | _ => false end.

Definition isStart (b : ControlPanel.Button) : bool :=
  match b with ControlPanel.StartButton => true | _ => false end.

(** The buttons clicked during a run of the page, in order. *)
Definition buttons (acts : list App.Action) : list ControlPanel.Button :=
  flat_map (fun a => match a with App.Click b => [b] | App.Elapse _ => [] end) acts.

(** The time that passes during a run of the page. *)
Definition waited (acts : list App.Action) : Z :=
  foldr (fun a t => match a with
                    | App.Click _ => t
                    | App.Elapse ms => (Z.max 0 ms + t)%Z
                    end) 0%Z acts.

(** The metrics a display mounted at [t0] shows after [k] ticks: the initial
    ones before the first tick, then those generated at the instant of the
    last tick from the three values that tick drew. *)
Definition metrics_at (rnd : nat -> Q) (t0 : Z) (k : nat) : MetricsDisplay.SensorMetrics :=
  match k with
  | O =>
      {| MetricsDisplay.laserIntensity := 0; MetricsDisplay.temperature := 25;
         MetricsDisplay.measurementRate := 10; MetricsDisplay.timestamp := t0 |}
  | S j =>
      {| MetricsDisplay.laserIntensity :=
           Double.floor (Double.mul (rnd (3 * j)%nat) 100);
         MetricsDisplay.temperature :=
           Double.add 25 (Double.mul (rnd (3 * j + 1)%nat) 10);
         MetricsDisplay.measurementRate :=
           Double.add 5 (Double.mul (rnd (3 * j + 2)%nat) 15);
         MetricsDisplay.timestamp := t0 + 1000 * Z.of_nat k |}
  end.

(** The ranges of the metrics the display shows. *)
Definition in_range (m : MetricsDisplay.SensorMetrics) : Prop :=
  (0 <= MetricsDisplay.laserIntensity m /\ MetricsDisplay.laserIntensity m <= 99)%Q /\
  (25 <= MetricsDisplay.temperature m /\ MetricsDisplay.temperature m <= 35)%Q /\
  (5 <= MetricsDisplay.measurementRate m /\ MetricsDisplay.measurementRate m <= 20)%Q.

(** A page mounted at [t0] on which [k] ticks have run. *)
Definition ticked (rnd : nat -> Q) (t0 : Z) (k : nat) (w : App.World) : Prop :=
  Browser.timers (App.env w) = [App.display_timer 1 (t0 + 1000 * (Z.of_nat k + 1))] /\
  Browser.drawn (App.env w) = (3 * k)%nat /\
  (t0 + 1000 * Z.of_nat k <= Browser.clock (App.env w)
   < t0 + 1000 * (Z.of_nat k + 1))%Z /\
  Browser.random (App.env w) = rnd /\
  MetricsDisplay.metrics (App.display w) = metrics_at rnd t0 k.

End Runs.

(* ===================================================================== *)
(** * Properties of the history buffer                                    *)
(* ===================================================================== *)

Section BufferFacts.
Import SensorStore.

Lemma addReading_readings (r : SensorReading) (s : Store) :
  (length (readings s) <= 100)%nat ->
  readings (addReading r s)
  = drop (length (readings s ++ [r]) - 100) (readings s ++ [r]).
Proof.
  intros Hlen. unfold addReading, shift. cbn [readings].
  rewrite length_app. cbn [length].
  destruct (Nat.ltb_spec 100 (length (readings s) + 1)) as [Hgt | Hle].
  - replace (length (readings s) + 1 - 100)%nat with 1%nat by lia. reflexivity.
  - replace (length (readings s) + 1 - 100)%nat with 0%nat by lia. reflexivity.
Qed.

Lemma addReading_length (r : SensorReading) (s : Store) :
  (length (readings s) <= 100)%nat ->
  (length (readings (addReading r s)) <= 100)%nat.
Proof.
  intros Hlen. rewrite addReading_readings by exact Hlen.
  rewrite length_drop, length_app. cbn [length]. lia.
Qed.

Lemma addReadings_snoc (rs : list SensorReading) (r : SensorReading) (s : Store) :
  addReadings (rs ++ [r]) s = addReading r (addReadings rs s).
Proof. unfold addReadings. rewrite foldl_app. reflexivity. Qed.

Lemma addReadings_init (rs : list SensorReading) :
  readings (addReadings rs init) = drop (length rs - 100) rs.
Proof.
  induction rs as [| r rs IH] using rev_ind.
  - reflexivity.
  - rewrite addReadings_snoc.
    assert (Hlen : (length (readings (addReadings rs init)) <= 100)%nat).
    { rewrite IH, length_drop. lia. }
    rewrite addReading_readings by exact Hlen.
    rewrite IH, length_app, length_drop, length_app. cbn [length].
    destruct (Nat.le_gt_cases (length rs) 100) as [Hle | Hgt].
    + replace (length rs - 100)%nat with 0%nat by lia.
      rewrite drop_0, Nat.sub_0_r. reflexivity.
    + rewrite (drop_app_le rs [r]) by lia.
      rewrite (drop_app_le (drop _ rs) [r]) by (rewrite length_drop; lia).
      rewrite drop_drop. do 2 f_equal. lia.
Qed.

End BufferFacts.

Section History.
Import SensorStore.

(** C5. The history never exceeds 100 readings: starting from the empty
    store, after any sequence of [addReading] -- observed after any number
    [n] of them -- the buffer holds at most 100 readings, and one more
    [addReading] keeps that bound. *)
Theorem history_never_exceeds_capacity
    (rs : list SensorReading) (n : nat) (r : SensorReading) :
  let s := addReadings (take n rs) init in
  (length (readings s) <= 100)%nat /\
  (length (readings (addReading r s)) <= 100)%nat /\
  (readingCount s <= 100)%nat.
Proof.
  cbn zeta.
  assert (H : (length (readings (addReadings (take n rs) init)) <= 100)%nat).
  { rewrite addReadings_init, length_drop. lia. }
  split; [exact H | split; [apply addReading_length; exact H | exact H]].
Qed.

(** C6. Eviction is first in, first out: 101 readings pushed into the empty
    store leave the readings of index 1 to 100, in order; a push into a full
    buffer drops the reading of index 0 and appends the new one after the
    others, whose order is kept; and in general the buffer holds the last 100
    readings pushed, in the order of their insertion. *)
Theorem fifo_eviction
    (rs : list SensorReading) (s : Store) (r : SensorReading)
    (all : list SensorReading) :
  length rs = 101%nat ->
  length (readings s) = 100%nat ->
  readings (addReadings rs init) = drop 1 rs /\
  readings (addReading r s) = drop 1 (readings s) ++ [r] /\
  readings (addReadings all init) = drop (length all - 100) all.
Proof.
  intros Hrs Hs. split; [| split].
  - rewrite addReadings_init, Hrs. reflexivity.
  - rewrite addReading_readings by lia.
    rewrite length_app, Hs. cbn [length Nat.add Nat.sub].
    rewrite drop_app_le by lia. reflexivity.
  - apply addReadings_init.
Qed.

Lemma fifo_eviction_witness :
  readings (addReadings (map sample (seq 0 101)) init)
  = drop 1 (map sample (seq 0 101)) /\
  readings (addReading (sample 100) (addReadings (map sample (seq 0 100)) init))
  = drop 1 (readings (addReadings (map sample (seq 0 100)) init)) ++ [sample 100].
Proof.
  destruct (fifo_eviction (map sample (seq 0 101))
              (addReadings (map sample (seq 0 100)) init) (sample 100) [])
    as (H1 & H2 & _).
  - vm_compute. reflexivity.
  - vm_compute. reflexivity.
  - split; [exact H1 | exact H2].
Defined.

(** C7. Stopping changes the running flag only.  In the store,
    [stopMonitoring] of the composable -- whether the backend command
    resolves or rejects -- and [setMonitoring] leave the readings as they
    were, hence also the latest reading, the count and any statistics
    computed from the readings; in the panel, [stopMonitoring] leaves
    [hasData] as it was; in the page, it leaves the display and the
    environment (clock, timers, random source) as they were. *)
Theorem stop_changes_only_the_flag
    (invoke : UseSensorMonitor.Outcome) (s : Store) (status : bool)
    (w : App.World) (sqrt : Q -> Q) :
  let s' := fst (UseSensorMonitor.stopMonitoring invoke s) in
  let w' := App.on_panel ControlPanel.stopMonitoring w in
  readings s' = readings s /\
  latestReading s' = latestReading s /\
  readingCount s' = readingCount s /\
  StatisticsAggregator.compute sqrt (readings s')
  = StatisticsAggregator.compute sqrt (readings s) /\
  readings (setMonitoring status s) = readings s /\
  ControlPanel.hasData (App.panel w') = ControlPanel.hasData (App.panel w) /\
  ControlPanel.isMonitoring (App.panel w') = false /\
  App.display w' = App.display w /\
  App.env w' = App.env w.
Proof.
  cbn zeta. destruct invoke as [| e]; cbn; repeat split; reflexivity.
Qed.

End History.

(* ===================================================================== *)
(** * Properties of the control panel                                     *)
(* ===================================================================== *)

Section Panel.
Import ControlPanel.

Lemma clicks_app (bs1 bs2 : list Button) (p : Refs) :
  fst (clicks (bs1 ++ bs2) p) = fst (clicks bs2 (fst (clicks bs1 p))).
Proof.
  revert p. induction bs1 as [| b bs1 IH]; intros p.
  - reflexivity.
  - cbn [clicks app].
    destruct (onClick b p) as [p1 out1] eqn:E1.
    specialize (IH p1).
    destruct (clicks (bs1 ++ bs2) p1) as [p2 out2].
    destruct (clicks bs1 p1) as [p3 out3].
    exact IH.
Qed.

(** Once [hasData] is set, no handler clears it. *)
Lemma hasData_kept (b : Button) (p : Refs) :
  hasData p = true -> hasData (fst (onClick b p)) = true.
Proof. destruct b; cbn; intros H; auto. Qed.

Lemma hasData_kept_clicks (bs : list Button) (p : Refs) :
  hasData p = true -> hasData (fst (clicks bs p)) = true.
Proof.
  revert p. induction bs as [| b bs IH]; intros p H.
  - exact H.
  - cbn [clicks]. destruct (onClick b p) as [p1 out1] eqn:E1.
    assert (H1 : hasData p1 = true).
    { replace p1 with (fst (onClick b p)) by (rewrite E1; reflexivity).
      apply hasData_kept, H. }
    specialize (IH p1 H1). destruct (clicks bs p1) as [p2 out2]. exact IH.
Qed.

(** Whenever the panel is monitoring, [hasData] is set. *)
Lemma monitoring_has_data (bs : list Button) :
  isMonitoring (fst (clicks bs setup)) = true ->
  hasData (fst (clicks bs setup)) = true.
Proof.
  induction bs as [| b bs IH] using rev_ind.
  - cbn. discriminate.
  - rewrite clicks_app. cbn [clicks].
    destruct (onClick b (fst (clicks bs setup))) as [p1 out1] eqn:E1.
    cbn [fst]. destruct b; cbn in E1; inversion E1; subst; cbn.
    + reflexivity.
    + discriminate.
    + exact IH.
Qed.

(** C4. The panel has the two monitoring states [Stopped] and [Running] and
    starts [Stopped]; [startMonitoring] leads to [Running] and
    [stopMonitoring] to [Stopped] from any state; [stopMonitoring] while
    [Stopped] leaves the refs as they are; [startMonitoring] while [Running]
    (in any state the clicks can reach) leaves the refs as they are and is
    not an error: the policy is the no-op.  Both handlers still emit their
    event. *)
Theorem monitoring_state_machine (p : Refs) (bs : list Button) :
  state setup = Stopped /\
  (state p = Stopped \/ state p = Running) /\
  state (fst (startMonitoring p)) = Running /\
  state (fst (stopMonitoring p)) = Stopped /\
  (state p = Stopped -> stopMonitoring p = (p, [EmitStop])) /\
  (state (fst (clicks bs setup)) = Running ->
   startMonitoring (fst (clicks bs setup)) = (fst (clicks bs setup), [EmitStart])).
Proof.
  repeat split.
  - unfold state. destruct (isMonitoring p); auto.
  - unfold state. destruct p as [[|] h]; cbn; intros H; [discriminate | reflexivity].
  - intros H. unfold state in H.
    destruct (isMonitoring (fst (clicks bs setup))) eqn:Em; [| discriminate].
    pose proof (monitoring_has_data bs Em) as Hd.
    destruct (fst (clicks bs setup)) as [m h]. cbn in *. subst. reflexivity.
Qed.

Lemma monitoring_state_machine_witness :
  stopMonitoring setup = (setup, [EmitStop]) /\
  startMonitoring (fst (clicks [StartButton] setup))
  = (fst (clicks [StartButton] setup), [EmitStart]).
Proof.
  destruct (monitoring_state_machine setup [StartButton])
    as (_ & _ & _ & _ & Hstop & Hstart).
  split; [apply Hstop; reflexivity | apply Hstart; reflexivity].
Defined.

(** C10. [startMonitoring] and [stopMonitoring] are idempotent on the refs
    of the panel: two calls in a row leave [isMonitoring] and [hasData] as
    one call does (both true after start; [isMonitoring] false after stop).
    A second start is no error; like the first, it emits its event. *)
Theorem start_stop_idempotent (p : Refs) :
  fst (startMonitoring (fst (startMonitoring p))) = fst (startMonitoring p) /\
  fst (startMonitoring p) = {| isMonitoring := true; hasData := true |} /\
  fst (stopMonitoring (fst (stopMonitoring p))) = fst (stopMonitoring p) /\
  isMonitoring (fst (stopMonitoring p)) = false /\
  snd (startMonitoring (fst (startMonitoring p))) = [EmitStart].
Proof. repeat split. Qed.

End Panel.

(* ===================================================================== *)
(** * Properties of the arithmetic of doubles                             *)
(* ===================================================================== *)

Section DoubleFacts.
Import Double.
Local Open Scope Q_scope.

Lemma nearest_even_near (n d : Z) :
  (0 < d)%Z ->
  (2 * n - d <= 2 * d * nearest_even n d <= 2 * n + d)%Z.
Proof.
  intros Hd. unfold nearest_even.
  pose proof (Z.div_mod n d ltac:(lia)) as Hn.
  pose proof (Z.mod_pos_bound n d Hd) as Hr.
  destruct (Z.compare_spec (2 * (n mod d)) d) as [E | L | G];
    [destruct (Z.even (n / d)) |..]; nia.
Qed.

Lemma nearest_even_ge (n d A : Z) :
  (0 < d)%Z -> (A * d <= n)%Z -> (A <= nearest_even n d)%Z.
Proof.
  intros Hd HA. unfold nearest_even.
  pose proof (Z.div_mod n d ltac:(lia)) as Hn.
  pose proof (Z.mod_pos_bound n d Hd) as Hr.
  assert (A <= n / d)%Z by nia.
  destruct (2 * (n mod d) ?= d)%Z; [destruct (Z.even (n / d)) |..]; lia.
Qed.

Lemma nearest_even_le (n d B : Z) :
  (0 < d)%Z -> (n <= B * d)%Z -> (nearest_even n d <= B)%Z.
Proof.
  intros Hd HB. unfold nearest_even.
  pose proof (Z.div_mod n d ltac:(lia)) as Hn.
  pose proof (Z.mod_pos_bound n d Hd) as Hr.
  assert (n / d <= B)%Z by nia.
  destruct (Z.eq_dec (n / d)%Z B) as [E | NE].
  - assert (n mod d = 0)%Z by nia.
    destruct (Z.compare_spec (2 * (n mod d)) d) as [E2 | L | G]; try lia.
  - destruct (2 * (n mod d) ?= d)%Z; [destruct (Z.even (n / d)) |..]; lia.
Qed.

Lemma ilog2_lt (n d k : Z) :
  (0 < n)%Z -> (0 < d)%Z -> (0 <= k)%Z -> (n < d * 2 ^ k)%Z ->
  (ilog2 n d < k)%Z.
Proof.
  intros Hn Hd Hk Hlt. unfold ilog2.
  pose proof (Z.log2_spec n Hn) as [Ln1 Ln2].
  pose proof (Z.log2_spec d Hd) as [Ld1 Ld2].
  pose proof (Z.log2_nonneg n) as Hln. pose proof (Z.log2_nonneg d) as Hld.
  set (a := Z.log2 n) in *. set (b := Z.log2 d) in *.
  assert (Hab : (a - b <= k)%Z).
  { destruct (Z.le_gt_cases (a - b) k) as [H | H]; [exact H | exfalso].
    assert (2 ^ (Z.succ b + k) <= 2 ^ a)%Z by (apply Z.pow_le_mono_r; lia).
    rewrite Z.pow_add_r in H0 by lia.
    assert (0 < 2 ^ k)%Z by (apply Z.pow_pos_nonneg; lia). nia. }
  destruct (Z.leb_spec 0 (a - b)) as [H0 | H0].
  - destruct (Z.leb_spec (d * 2 ^ (a - b)) n) as [H1 | H1]; [| lia].
    destruct (Z.eq_dec (a - b)%Z k) as [E | NE]; [rewrite E in H1 |]; lia.
  - destruct (d <=? n * 2 ^ (- (a - b)))%Z; lia.
Qed.

Lemma ilog2_ge_m1 (n d : Z) :
  (0 < n)%Z -> (0 < d)%Z -> (d <= 2 * n)%Z -> (-1 <= ilog2 n d)%Z.
Proof.
  intros Hn Hd Hle. unfold ilog2.
  pose proof (Z.log2_spec n Hn) as [Ln1 Ln2].
  pose proof (Z.log2_spec d Hd) as [Ld1 Ld2].
  pose proof (Z.log2_nonneg n) as Hln. pose proof (Z.log2_nonneg d) as Hld.
  set (a := Z.log2 n) in *. set (b := Z.log2 d) in *.
  assert (Hab : (-1 <= a - b)%Z).
  { destruct (Z.le_gt_cases (-1) (a - b)) as [H | H]; [exact H | exfalso].
    assert (2 ^ (Z.succ a + 1) <= 2 ^ b)%Z by (apply Z.pow_le_mono_r; lia).
    rewrite Z.pow_add_r in H0 by lia. change (2 ^ 1)%Z with 2%Z in H0. lia. }
  destruct (Z.leb_spec 0 (a - b)) as [H0 | H0].
  - destruct (d * 2 ^ (a - b) <=? n)%Z; lia.
  - assert (E : (a - b = -1)%Z) by lia. rewrite E. change (2 ^ (- -1))%Z with 2%Z.
    destruct (Z.leb_spec d (n * 2)) as [H1 | H1]; lia.
Qed.

(** The rounding of a positive value below [2 ^ k], with [k <= 53]: a
    multiple of [2 ^ - s] for some [s >= 53 - k], the nearest one. *)
Lemma round_pos_scaled (n d k : Z) :
  (0 < n)%Z -> (0 < d)%Z -> (0 <= k <= 53)%Z -> (n < d * 2 ^ k)%Z ->
  exists s : Z,
    (53 - k <= s)%Z /\
    round_pos n d = Qmake (nearest_even (n * 2 ^ s) d) (Z.to_pos (2 ^ s)) /\
    Zpos (Z.to_pos (2 ^ s)) = (2 ^ s)%Z /\
    (s = 52 - Z.max emin (ilog2 n d))%Z.
Proof.
  intros Hn Hd Hk Hlt.
  pose proof (ilog2_lt n d k Hn Hd ltac:(lia) Hlt) as He.
  exists (52 - Z.max emin (ilog2 n d))%Z.
  assert (Hs : (53 - k <= 52 - Z.max emin (ilog2 n d))%Z) by (unfold emin; lia).
  split; [exact Hs |]. split; [| split; [| reflexivity]].
  - unfold round_pos, prec.
    replace (53 - 1 - Z.max emin (ilog2 n d))%Z
      with (52 - Z.max emin (ilog2 n d))%Z by lia.
    destruct (Z.leb_spec 0 (52 - Z.max emin (ilog2 n d))) as [H | H]; [reflexivity | lia].
  - apply Z2Pos.id. apply Z.pow_pos_nonneg; lia.
Qed.

Lemma round_between (x : Q) (A B : Z) :
  (0 <= A)%Z -> (B < 2 ^ 53)%Z ->
  inject_Z A <= x -> x <= inject_Z B ->
  inject_Z A <= round x /\ round x <= inject_Z B.
Proof.
  intros HA HB Hax Hxb. unfold round. rewrite Qred_correct.
  destruct x as [n d]. unfold Qle in Hax, Hxb. cbn in Hax, Hxb. cbn [Qnum Qden].
  destruct n as [| n | n].
  - unfold Qle. cbn. lia.
  - assert (Hlt : (Z.pos n < Z.pos d * 2 ^ 53)%Z) by nia.
    destruct (round_pos_scaled (Z.pos n) (Z.pos d) 53 ltac:(lia) ltac:(lia)
                ltac:(lia) Hlt) as (s & Hs & -> & Hp & _).
    assert (H2 : (0 < 2 ^ s)%Z) by (apply Z.pow_pos_nonneg; lia).
    unfold Qle. cbn [Qnum Qden inject_Z]. rewrite Hp, !Z.mul_1_r. split.
    + apply nearest_even_ge; [lia | nia].
    + apply nearest_even_le; [lia | nia].
  - lia.
Qed.

Lemma round_below (x : Q) (B : Z) :
  0 < x -> x < 128 -> x + (1 # 2 ^ 47) < inject_Z B ->
  round x < inject_Z B.
Proof.
  intros H0 H128 HB. unfold round. rewrite Qred_correct.
  destruct x as [n d]. unfold Qlt in H0, H128, HB. cbn in H0, H128, HB.
  cbn [Qnum Qden]. destruct n as [| n | n]; try lia.
  assert (Hlt : (Z.pos n < Z.pos d * 2 ^ 7)%Z) by (change (2 ^ 7)%Z with 128%Z; lia).
  destruct (round_pos_scaled (Z.pos n) (Z.pos d) 7 ltac:(lia) ltac:(lia)
              ltac:(lia) Hlt) as (s & Hs & -> & Hp & _).
  assert (H2 : (0 < 2 ^ s)%Z) by (apply Z.pow_pos_nonneg; lia).
  unfold Qlt. cbn [Qnum Qden inject_Z]. rewrite Hp, Z.mul_1_r.
  pose proof (nearest_even_near (Z.pos n * 2 ^ s) (Z.pos d) ltac:(lia)) as [_ Hne].
  assert (Hpow : (2 ^ s = 2 ^ 46 * 2 ^ (s - 46))%Z).
  { rewrite <- Z.pow_add_r by lia. f_equal. lia. }
  assert (H3 : (0 < 2 ^ (s - 46))%Z) by (apply Z.pow_pos_nonneg; lia).
  set (u := (2 ^ (s - 46))%Z) in *. rewrite Hpow in *. clearbody u.
  change (2 ^ 46)%Z with 70368744177664%Z in *.
  change (Z.pos (2 ^ 47))%Z with 140737488355328%Z in HB.
  nia.
Qed.

(** The doubles below 1 end at [1 - 2 ^ - 53]. *)
Lemma double_below_one (x : Q) :
  is_double x -> 0 <= x -> x < 1 -> x <= below_one.
Proof.
  unfold is_double, round. rewrite Qred_correct.
  destruct x as [n d]. intros Hd H0 H1.
  unfold Qle in H0. unfold Qlt in H1. cbn in H0, H1. cbn [Qnum Qden] in Hd.
  unfold Qle, below_one. cbn [Qnum Qden].
  destruct n as [| n | n]; try lia.
  destruct (Z.le_gt_cases (Z.pos d) (2 * Z.pos n)) as [Hhalf | Hhalf]; [| lia].
  assert (Hlt : (Z.pos n < Z.pos d * 2 ^ 0)%Z) by (change (2 ^ 0)%Z with 1%Z; lia).
  destruct (round_pos_scaled (Z.pos n) (Z.pos d) 0 ltac:(lia) ltac:(lia)
              ltac:(lia) Hlt) as (s & Hs & E & Hp & Hse).
  pose proof (ilog2_lt (Z.pos n) (Z.pos d) 0 ltac:(lia) ltac:(lia) ltac:(lia) Hlt).
  pose proof (ilog2_ge_m1 (Z.pos n) (Z.pos d) ltac:(lia) ltac:(lia) Hhalf).
  assert (Hs53 : s = 53%Z) by (unfold emin in Hse; lia).
  rewrite E in Hd. unfold Qeq in Hd. cbn [Qnum Qden] in Hd.
  rewrite Hp, Hs53 in Hd.
  change (2 ^ 53)%Z with 9007199254740992%Z in Hd.
  set (m := nearest_even _ _) in Hd. clearbody m.
  assert (Hm : (m * Z.pos d < 9007199254740992 * Z.pos d)%Z) by lia.
  apply Z.mul_lt_mono_pos_r in Hm; [| lia].
  assert (Hm' : (m * Z.pos d <= 9007199254740991 * Z.pos d)%Z).
  { apply Z.mul_le_mono_nonneg_r; lia. }
  lia.
Qed.

Lemma mul_unit_between (r : Q) (c : Z) :
  (0 <= c < 2 ^ 53)%Z -> 0 <= r -> r < 1 ->
  0 <= mul r (inject_Z c) /\ mul r (inject_Z c) <= inject_Z c.
Proof.
  intros Hc H0 H1. unfold mul. change 0 with (inject_Z 0).
  assert (Hq : 0 <= inject_Z c) by (change 0 with (inject_Z 0); rewrite <- Zle_Qle; lia).
  apply round_between; try lia.
  - change (inject_Z 0) with 0. nra.
  - nra.
Qed.

Lemma add_between (a : Z) (p : Q) (c : Z) :
  (0 <= a)%Z -> (0 <= c)%Z -> (a + c < 2 ^ 53)%Z ->
  0 <= p -> p <= inject_Z c ->
  inject_Z a <= add (inject_Z a) p /\ add (inject_Z a) p <= inject_Z (a + c).
Proof.
  intros Ha Hc Hac H0 H1. unfold add. apply round_between; try lia.
  - lra.
  - rewrite inject_Z_plus. lra.
Qed.

Lemma percent_below_100 (r : Q) :
  0 <= r -> r <= below_one ->
  (0 <= Qfloor (mul r 100) <= 99)%Z.
Proof.
  intros H0 H1. unfold mul.
  assert (Hr : r < 1) by (unfold below_one in H1; apply Qle_lt_trans with (1 := H1); reflexivity).
  destruct (round_between (r * 100) 0 100 ltac:(lia) ltac:(lia)) as [Hlo Hhi].
  { change (inject_Z 0) with 0. lra. }
  { change (inject_Z 100) with 100. lra. }
  split.
  - change 0%Z with (Qfloor 0). apply Qfloor_resp_le. exact Hlo.
  - assert (Hlt : round (r * 100) < inject_Z 100).
    { destruct (Qle_lt_or_eq _ _ H0) as [Hpos | Hz].
      - apply round_below.
        + lra.
        + lra.
        + change (inject_Z 100) with 100. unfold below_one in H1.
          assert (r * 100 <= (9007199254740991 # 9007199254740992) * 100) by lra.
          apply Qle_lt_trans with ((9007199254740991 # 9007199254740992) * 100 + (1 # 2 ^ 47)).
          * lra.
          * reflexivity.
      - destruct (round_between (r * 100) 0 0 ltac:(lia) ltac:(lia)) as [_ Hz0].
        + change (inject_Z 0) with 0. lra.
        + change (inject_Z 0) with 0. lra.
        + apply Qle_lt_trans with (inject_Z 0); [exact Hz0 | reflexivity]. }
    assert (H : inject_Z (Qfloor (round (r * 100))) < inject_Z 100).
    { apply Qle_lt_trans with (round (r * 100)); [apply Qfloor_le | exact Hlt]. }
    rewrite <- Zlt_Qlt in H. lia.
Qed.

Lemma half_is_double : is_double (1 # 2).
Proof. vm_compute. reflexivity. Qed.

(** The arithmetic at work: the double [0.03] times 100 rounds to 3, where
    the exact product lies below 3; the largest double below 1 times 100
    rounds below 100, and times 10 plus 25, times 15 plus 5, round to 35 and
    20. *)
Lemma round_examples :
  floor (mul three_hundredths 100) == 3 /\
  three_hundredths * 100 < 3 /\
  floor (mul below_one 100) == 99 /\
  add 25 (mul below_one 10) == 35 /\
  add 5 (mul below_one 15) == 20 /\
  is_double three_hundredths /\ is_double below_one.
Proof. vm_compute. repeat split; reflexivity. Qed.

End DoubleFacts.

(* ===================================================================== *)
(** * Properties of the generated metrics                                 *)
(* ===================================================================== *)

Section Generator.
Import Browser MetricsDisplay.

Lemma half_unit_interval : unit_interval half.
Proof.
  intros n. split; [exact half_is_double | split; [discriminate | reflexivity]].
Qed.

Lemma floor_percent (r : Q) :
  Double.is_double r -> (0 <= r)%Q -> (r < 1)%Q ->
  (0 <= Qfloor (Double.mul r 100) <= 99)%Z.
Proof.
  intros Hd H0 H1. apply percent_below_100; [exact H0 |].
  apply double_below_one; assumption.
Qed.

Lemma scaled_between (a c : Z) (r : Q) :
  (0 <= a)%Z -> (0 <= c)%Z -> (a + c < 2 ^ 53)%Z ->
  (0 <= r)%Q -> (r < 1)%Q ->
  (inject_Z a <= Double.add (inject_Z a) (Double.mul r (inject_Z c)) /\
   Double.add (inject_Z a) (Double.mul r (inject_Z c)) <= inject_Z (a + c))%Q.
Proof.
  intros Ha Hc Hac H0 H1.
  destruct (mul_unit_between r c ltac:(lia) H0 H1) as [Hlo Hhi].
  apply add_between; assumption.
Qed.

(** C3, as the code has it.  For every values drawn from the random source
    (each a double at least 0 and below 1), the metrics [updateMetrics]
    generates lie in the ranges its formulas fix: the laser intensity is a
    whole number from 0 to 99, the temperature lies between 25 and 35 and
    the measurement rate between 5 and 20, the products and sums being those
    of doubles.  No clamp is involved, and these are not the ranges
    documented for the device. *)
Theorem generated_metrics_within_formula_ranges (d : Display) (e : Env) :
  unit_interval (random e) ->
  let m := metrics (eval (updateMetrics d) e) in
  (exists k : Z, laserIntensity m = inject_Z k /\ (0 <= k <= 99)%Z) /\
  (0 <= laserIntensity m /\ laserIntensity m <= 99)%Q /\
  (25 <= temperature m /\ temperature m <= 35)%Q /\
  (5 <= measurementRate m /\ measurementRate m <= 20)%Q.
Proof.
  intros Hrnd.
  unfold updateMetrics, eval, bind, Math_random, Date_now, ret.
  cbn [fst snd metrics laserIntensity temperature measurementRate
       random drawn clock].
  destruct (Hrnd (drawn e)) as (Had & Ha0 & Ha1).
  destruct (Hrnd (S (drawn e))) as (_ & Hb0 & Hb1).
  destruct (Hrnd (S (S (drawn e)))) as (_ & Hc0 & Hc1).
  pose proof (floor_percent _ Had Ha0 Ha1) as [Hf0 Hf1].
  split; [| split; [| split]].
  - eexists. split; [reflexivity | lia].
  - unfold Double.floor. split.
    + change 0%Q with (inject_Z 0). rewrite <- Zle_Qle. exact Hf0.
    + change 99%Q with (inject_Z 99). rewrite <- Zle_Qle. exact Hf1.
  - exact (scaled_between 25 10 _ ltac:(lia) ltac:(lia) ltac:(lia) Hb0 Hb1).
  - exact (scaled_between 5 15 _ ltac:(lia) ltac:(lia) ltac:(lia) Hc0 Hc1).
Qed.

Lemma generated_metrics_within_formula_ranges_witness :
  let m := metrics (eval (updateMetrics (eval setup (fresh half 0))) (fresh half 0)) in
  (25 <= temperature m /\ temperature m <= 35)%Q.
Proof.
  apply (generated_metrics_within_formula_ranges
           (eval setup (fresh half 0)) (fresh half 0)).
  intros n. split; [vm_compute; reflexivity | split; [discriminate | reflexivity]].
Defined.

(** C3, as the specification has it, fails for the documented ranges: with
    the draws all equal to one half, the generated temperature is 30, outside
    the documented 20-25, and the generated intensity is 50, outside the
    documented 500-2000. *)
Lemma generated_metrics_outside_documented_ranges :
  let e := fresh half 0 in
  let m := metrics (eval (updateMetrics (eval setup e)) e) in
  unit_interval (random e) /\
  (temperature m == 30)%Q /\
  (laserIntensity m == 50)%Q /\
  ~ documented_temperature (temperature m) /\
  ~ documented_intensity (laserIntensity m).
Proof.
  cbn zeta. split; [exact half_unit_interval |].
  split; [vm_compute; reflexivity |]. split; [vm_compute; reflexivity |]. split.
  - intros [_ H]. vm_compute in H. apply H. reflexivity.
  - intros [H _]. vm_compute in H. apply H. reflexivity.
Qed.

End Generator.

(* ===================================================================== *)
(** * Properties of the statistics                                        *)
(* ===================================================================== *)

Section Aggregates.
Import SensorStore StatisticsAggregator.

(** C8. The statistics of no readings have the count 0 and every aggregate
    absent ([None], the explicit "undefined" marker); the statistics of one
    or more readings have a positive count and every aggregate present, the
    mean being the sum divided by that positive count.  So the count alone
    tells "no data" from a value of zero, and nothing is divided by zero. *)
Theorem statistics_of_no_data
    (sqrt : Q -> Q) (r : SensorReading) (rs : list SensorReading) :
  compute sqrt []
  = {| count := 0; mean := None; min := None; max := None; std_dev := None |} /\
  count (compute sqrt (r :: rs)) = S (length rs) /\
  mean (compute sqrt (r :: rs))
  = Some (sum (map distance_mm (r :: rs)) / inject_Z (Z.of_nat (S (length rs))))%Q /\
  (0 < inject_Z (Z.of_nat (S (length rs))))%Q /\
  (exists lo hi sd : Q,
      min (compute sqrt (r :: rs)) = Some lo /\
      max (compute sqrt (r :: rs)) = Some hi /\
      std_dev (compute sqrt (r :: rs)) = Some sd).
Proof.
  split; [reflexivity |].
  unfold compute. cbn [map]. cbn [count mean min max std_dev].
  cbn [length]. rewrite !length_map.
  split; [reflexivity |]. split; [reflexivity |]. split.
  - change 0%Q with (inject_Z 0). rewrite <- Zlt_Qlt. lia.
  - eexists _, _, _. repeat split.
Qed.

End Aggregates.

(* ===================================================================== *)
(** * Properties of the timer of the display                              *)
(* ===================================================================== *)

Section Page.
Import Browser App.

Lemma run_due_fires (fuel : nat) (target h D : Z) (w : World) :
  timers (env w) = [display_timer h D] ->
  (D <= target)%Z ->
  run_due (S fuel) target w = run_due fuel target (tick h D w).
Proof.
  intros Ht Hle. cbn [run_due]. rewrite Ht. cbn [earliest foldr display_timer due].
  destruct (Z.leb_spec D target) as [_ | Hgt]; [| lia].
  unfold tick. cbn [callback handle period reschedule map set_clock timers].
  rewrite Ht. cbn [map handle period due callback display_timer].
  rewrite Z.eqb_refl. reflexivity.
Qed.

Lemma run_due_idle (fuel : nat) (target h D : Z) (w : World) :
  timers (env w) = [display_timer h D] ->
  (target < D)%Z ->
  run_due fuel target w = w.
Proof.
  intros Ht Hlt. destruct fuel as [| fuel]; [reflexivity |].
  cbn [run_due]. rewrite Ht. cbn [earliest foldr display_timer due].
  destruct (Z.leb_spec D target) as [Hle | _]; [lia | reflexivity].
Qed.

Lemma run_due_no_timer (fuel : nat) (target : Z) (w : World) :
  timers (env w) = [] -> run_due fuel target w = w.
Proof.
  intros Ht. destruct fuel as [| fuel]; [reflexivity |].
  cbn [run_due]. rewrite Ht. reflexivity.
Qed.

(** What one tick changes. *)
Lemma tick_effect (h D : Z) (w : World) :
  (clock (env w) <= D)%Z ->
  timers (env (tick h D w)) = [display_timer h (D + 1000)] /\
  clock (env (tick h D w)) = D /\
  drawn (env (tick h D w)) = (drawn (env w) + 3)%nat /\
  random (env (tick h D w)) = random (env w) /\
  nextHandle (env (tick h D w)) = nextHandle (env w) /\
  panel (tick h D w) = panel w /\
  emitted (tick h D w) = emitted w /\
  MetricsDisplay.updateInterval (display (tick h D w))
  = MetricsDisplay.updateInterval (display w) /\
  MetricsDisplay.timestamp (MetricsDisplay.metrics (display (tick h D w))) = D.
Proof.
  intros Hc. unfold tick, fire, on_display, MetricsDisplay.updateMetrics,
    bind, Math_random, Date_now, ret, with_env, set_timers, set_clock.
  cbn. rewrite Z.max_r by exact Hc.
  repeat split; try reflexivity. lia.
Qed.

Lemma run_due_ticks (k : nat) :
  forall (fuel : nat) (target h D : Z) (w : World),
  timers (env w) = [display_timer h D] ->
  (clock (env w) <= D)%Z ->
  Z.to_nat ((target - D) / 1000 + 1) = k ->
  (k <= fuel)%nat ->
  let w' := run_due fuel target w in
  timers (env w') = [display_timer h (D + 1000 * Z.of_nat k)] /\
  drawn (env w') = (drawn (env w) + 3 * k)%nat /\
  same_frame w' w /\
  (k = 0%nat -> w' = w) /\
  ((0 < k)%nat ->
   clock (env w') = (D + 1000 * (Z.of_nat k - 1))%Z /\
   MetricsDisplay.timestamp (MetricsDisplay.metrics (display w'))
   = (D + 1000 * (Z.of_nat k - 1))%Z).
Proof.
  induction k as [| k IH]; intros fuel target h D w Ht Hc Hk Hfuel; cbn zeta.
  - assert (Hlt : (target < D)%Z).
    { assert ((target - D) / 1000 + 1 <= 0)%Z by lia.
      Z.div_mod_to_equations. lia. }
    rewrite (run_due_idle fuel target h D w Ht Hlt).
    rewrite Z.mul_0_r, Z.add_0_r, Nat.mul_0_r, Nat.add_0_r.
    unfold same_frame. repeat split; try assumption; try reflexivity; lia.
  - destruct fuel as [| fuel]; [lia |].
    assert (Hle : (D <= target)%Z).
    { assert (1 <= (target - D) / 1000 + 1)%Z by lia.
      Z.div_mod_to_equations. lia. }
    rewrite (run_due_fires fuel target h D w Ht Hle).
    destruct (tick_effect h D w Hc)
      as (Tt & Tc & Td & Tr & Tn & Tp & Te & Tu & Ts).
    assert (Hk' : Z.to_nat ((target - (D + 1000)) / 1000 + 1) = k).
    { replace (target - (D + 1000))%Z with (target - D + (-1) * 1000)%Z by lia.
      rewrite Z.div_add by lia. lia. }
    assert (Hc' : (clock (env (tick h D w)) <= D + 1000)%Z) by lia.
    destruct (IH fuel target h (D + 1000)%Z (tick h D w) Tt Hc' Hk' ltac:(lia))
      as (It & Id & (Ir & In_ & Ip & Ie & Iu) & I0 & Ipos).
    split; [rewrite It; f_equal; f_equal; lia |].
    split; [rewrite Id, Td; lia |].
    split; [unfold same_frame; repeat split; congruence |].
    split; [discriminate |].
    intros _. destruct k as [| k].
    + rewrite (I0 eq_refl). rewrite Tc, Ts. split; lia.
    + destruct (Ipos ltac:(lia)) as [Jc Js]. rewrite Jc, Js. split; lia.
Qed.

Lemma elapse_ticks (ms h D : Z) (w : World) :
  timers (env w) = [display_timer h D] ->
  (clock (env w) <= D)%Z ->
  let target := (clock (env w) + Z.max 0 ms)%Z in
  let k := Z.to_nat ((target - D) / 1000 + 1) in
  let w' := elapse ms w in
  timers (env w') = [display_timer h (D + 1000 * Z.of_nat k)] /\
  clock (env w') = target /\
  drawn (env w') = (drawn (env w) + 3 * k)%nat /\
  same_frame w' w /\
  (k = 0%nat -> display w' = display w) /\
  ((0 < k)%nat ->
   MetricsDisplay.timestamp (MetricsDisplay.metrics (display w'))
   = (D + 1000 * (Z.of_nat k - 1))%Z).
Proof.
  intros Ht Hc. cbn zeta. unfold elapse.
  set (target := (clock (env w) + Z.max 0 ms)%Z).
  set (k := Z.to_nat ((target - D) / 1000 + 1)).
  assert (Hp : pending target (timers (env w)) = k).
  { rewrite Ht. unfold pending, display_timer. cbn. lia. }
  rewrite Hp.
  destruct (run_due_ticks k k target h D w Ht Hc eq_refl (le_n k))
    as (Rt & Rd & Rf & R0 & Rpos).
  set (w1 := run_due k target w) in *.
  unfold with_env, set_clock. cbn [env display panel emitted clock drawn timers
    random nextHandle].
  split; [exact Rt |]. split; [reflexivity |]. split; [exact Rd |].
  split; [exact Rf |]. split.
  - intros H0. rewrite (R0 H0). reflexivity.
  - intros Hpos. exact (proj2 (Rpos Hpos)).
Qed.

Lemma mount_boot_facts (rnd : nat -> Q) (t0 : Z) :
  let w := mount (boot rnd t0) in
  timers (env w) = [display_timer 1 (t0 + 1000)] /\
  clock (env w) = t0 /\
  drawn (env w) = 0%nat /\
  display w
  = {| MetricsDisplay.metrics := MetricsDisplay.metrics (display (boot rnd t0));
       MetricsDisplay.updateInterval := Some 1%Z |} /\
  panel w = ControlPanel.setup.
Proof. repeat split. Qed.

Lemma mount_boot_mounted (rnd : nat -> Q) (t0 : Z) : mounted (mount (boot rnd t0)).
Proof.
  exists (t0 + 1000)%Z. destruct (mount_boot_facts rnd t0) as (Ht & Hc & _).
  cbn zeta in *. rewrite Ht, Hc. repeat split; lia.
Qed.

(** A click runs its handler on the panel and touches nothing else. *)
Lemma click_frame (b : ControlPanel.Button) (w : World) :
  env (step w (Click b)) = env w /\
  display (step w (Click b)) = display w /\
  panel (step w (Click b)) = fst (ControlPanel.onClick b (panel w)) /\
  emitted (step w (Click b)) = emitted w ++ snd (ControlPanel.onClick b (panel w)).
Proof.
  unfold step, on_panel. destruct (ControlPanel.onClick b (panel w)) as [p out].
  repeat split.
Qed.

Lemma clicks_frame (bs : list ControlPanel.Button) (w : World) :
  env (interact (map Click bs) w) = env w /\
  display (interact (map Click bs) w) = display w /\
  panel (interact (map Click bs) w) = fst (ControlPanel.clicks bs (panel w)).
Proof.
  revert w. induction bs as [| b bs IH]; intros w.
  - repeat split.
  - cbn [map interact foldl]. fold (interact (map Click bs) (step w (Click b))).
    destruct (IH (step w (Click b))) as (He & Hd & Hp).
    destruct (click_frame b w) as (Ce & Cd & Cp & _).
    rewrite He, Hd, Hp, Ce, Cd, Cp. cbn [ControlPanel.clicks].
    destruct (ControlPanel.onClick b (panel w)) as [p1 out1]. cbn [fst].
    destruct (ControlPanel.clicks bs p1) as [p2 out2]. repeat split.
Qed.

Lemma step_mounted (a : Action) (w : World) : mounted w -> mounted (step w a).
Proof.
  intros (D & Ht & Hc & Hu). destruct a as [b | ms].
  - destruct (click_frame b w) as (Ce & Cd & _).
    exists D. rewrite Ce, Cd. auto.
  - destruct (elapse_ticks ms 1 D w Ht ltac:(lia))
      as (Et & Ec & _ & (_ & _ & _ & _ & Eu) & _).
    cbn zeta in *. cbn [step].
    eexists. split; [exact Et |]. rewrite Ec, Eu. split; [| exact Hu].
    Z.div_mod_to_equations. lia.
Qed.

Lemma interact_mounted (acts : list Action) (w : World) :
  mounted w -> mounted (interact acts w).
Proof.
  revert w. induction acts as [| a acts IH]; intros w H; [exact H |].
  cbn [interact foldl]. apply IH, step_mounted, H.
Qed.

Lemma unmount_mounted (w : World) :
  mounted w ->
  timers (env (unmount w)) = [] /\
  display (unmount w) = display w /\
  drawn (env (unmount w)) = drawn (env w).
Proof.
  intros (D & Ht & _ & Hu).
  unfold unmount, on_display, MetricsDisplay.onUnmounted, bind, clearInterval, ret.
  rewrite Hu. cbn. rewrite Ht. repeat split.
Qed.

(** Without a timer nothing ticks, whatever is clicked and however long one
    waits. *)
Lemma step_idle (a : Action) (w : World) :
  timers (env w) = [] ->
  timers (env (step w a)) = [] /\
  display (step w a) = display w /\
  drawn (env (step w a)) = drawn (env w).
Proof.
  intros Ht. destruct a as [b | ms].
  - destruct (click_frame b w) as (Ce & Cd & _). rewrite Ce, Cd. auto.
  - cbn [step]. unfold elapse. rewrite run_due_no_timer by exact Ht.
    cbn. auto.
Qed.

Lemma interact_idle (acts : list Action) (w : World) :
  timers (env w) = [] ->
  timers (env (interact acts w)) = [] /\
  display (interact acts w) = display w /\
  drawn (env (interact acts w)) = drawn (env w).
Proof.
  revert w. induction acts as [| a acts IH]; intros w Ht; [auto |].
  cbn [interact foldl]. fold (interact acts (step w a)).
  destruct (step_idle a w Ht) as (St & Sd & Sn).
  destruct (IH (step w a) St) as (It & Id & In_).
  rewrite It, Id, In_, Sd, Sn. auto.
Qed.

(** C1, as the code has it.  The timer that drives the generation of the
    metrics is registered by [onMounted], not by a start: before the mount
    there is no timer, after it there is one whose period is 1000
    milliseconds, and no click on the panel changes the timers.  It fires
    once per full second: after [ms] milliseconds on a page just mounted,
    [ms / 1000] ticks have run, the last one at the instant
    [t0 + 1000 * (ms / 1000)]. *)
Theorem display_timer_fires_every_second
    (rnd : nat -> Q) (t0 ms : Z) (bs : list ControlPanel.Button) :
  let w := mount (boot rnd t0) in
  timers (env (boot rnd t0)) = [] /\
  timers (env w) = [display_timer 1 (t0 + 1000)] /\
  map period (timers (env w)) = [1000%Z] /\
  env (interact (map Click bs) w) = env w /\
  ticks (elapse ms w) = Z.to_nat (ms / 1000) /\
  ((1000 <= ms)%Z ->
   MetricsDisplay.timestamp (MetricsDisplay.metrics (display (elapse ms w)))
   = (t0 + 1000 * (ms / 1000))%Z).
Proof.
  cbn zeta.
  destruct (mount_boot_facts rnd t0) as (Ht & Hc & Hd & _). cbn zeta in *.
  split; [reflexivity |]. split; [exact Ht |]. split; [rewrite Ht; reflexivity |].
  split; [apply clicks_frame |].
  destruct (elapse_ticks ms 1 (t0 + 1000) (mount (boot rnd t0)) Ht ltac:(lia))
    as (_ & _ & Ed & _ & _ & Es).
  cbn zeta in *. rewrite Hc in *.
  assert (Hk : Z.to_nat ((t0 + Z.max 0 ms - (t0 + 1000)) / 1000 + 1)
               = Z.to_nat (ms / 1000)).
  { replace (t0 + Z.max 0 ms - (t0 + 1000))%Z
      with (Z.max 0 ms + (-1) * 1000)%Z by lia.
    rewrite Z.div_add by lia.
    destruct (Z.max_spec 0 ms) as [[Hlt ->] | [Hge ->]].
    - f_equal. lia.
    - assert (ms / 1000 <= 0)%Z by (Z.div_mod_to_equations; lia).
      change (0 / 1000)%Z with 0%Z. lia. }
  rewrite Hk in *. split.
  - unfold ticks. rewrite Ed, Hd. cbn [Nat.add].
    rewrite Nat.mul_comm. apply Nat.div_mul. discriminate.
  - intros Hms. rewrite Es.
    + rewrite Z2Nat.id by (Z.div_mod_to_equations; lia). lia.
    + assert (1 <= ms / 1000)%Z by (Z.div_mod_to_equations; lia). lia.
Qed.

Lemma display_timer_fires_every_second_witness :
  MetricsDisplay.timestamp
    (MetricsDisplay.metrics (display (elapse 3500 (mount (boot half 0)))))
  = 3000%Z.
Proof.
  destruct (display_timer_fires_every_second half 0 3500 []) as (_ & _ & _ & _ & _ & H).
  apply H. vm_compute. discriminate.
Defined.

(** C1, as the specification has it, fails: the interval handed to
    [setInterval] is 1000 milliseconds, not 100.  On a page mounted at the
    instant 0 and started, no tick has run after 100 milliseconds, none after
    999, and the first one runs at 1000. *)
Lemma tick_interval_is_not_100ms :
  let w := interact [Click ControlPanel.StartButton] (mount (boot half 0)) in
  map period (timers (env w)) = [1000%Z] /\
  ~ (forall t : Timer, In t (timers (env w)) -> period t = 100%Z) /\
  ticks (elapse 100 w) = 0%nat /\
  ticks (elapse 999 w) = 0%nat /\
  ticks (elapse 1000 w) = 1%nat.
Proof.
  cbn zeta. split; [reflexivity |]. split.
  - intros H. specialize (H (display_timer 1 1000) (or_introl eq_refl)).
    discriminate H.
  - repeat split.
Qed.

(** C2, as the code has it.  The ticks end with the unmount of the display,
    not with a stop: after [onUnmounted] no timer is left and, whatever is
    clicked and however long one waits afterwards, no tick runs -- nothing is
    drawn from the random source and the metrics stay as they were.
    [stopMonitoring] itself leaves the timers, the clock and the display
    untouched. *)
Theorem ticks_end_at_unmount
    (rnd : nat -> Q) (t0 : Z) (before after : list Action) (w0 : World) :
  let w := unmount (interact before (mount (boot rnd t0))) in
  timers (env w) = [] /\
  display (interact after w) = display w /\
  drawn (env (interact after w)) = drawn (env w) /\
  ticks (interact after w) = ticks w /\
  env (step w0 (Click ControlPanel.StopButton)) = env w0 /\
  display (step w0 (Click ControlPanel.StopButton)) = display w0.
Proof.
  cbn zeta.
  pose proof (interact_mounted before _ (mount_boot_mounted rnd t0)) as Hm.
  destruct (unmount_mounted _ Hm) as (Ht & _ & _).
  destruct (interact_idle after _ Ht) as (_ & Hd & Hn).
  split; [exact Ht |]. split; [exact Hd |]. split; [exact Hn |].
  split; [unfold ticks; rewrite Hn; reflexivity |].
  destruct (click_frame ControlPanel.StopButton w0) as (Ce & Cd & _).
  split; assumption.
Qed.

(** C2, as the specification has it, fails: on a page mounted at the
    instant 0, started and then stopped, the panel is not monitoring, and yet
    the tick of the instant 1000 runs: three values are drawn and the display
    shows the new metrics, generated at 1000. *)
Lemma tick_runs_after_stop :
  let w := interact [Click ControlPanel.StartButton; Click ControlPanel.StopButton]
             (mount (boot half 0)) in
  let w' := elapse 1000 w in
  ControlPanel.isMonitoring (panel w) = false /\
  emitted w = [ControlPanel.EmitStart; ControlPanel.EmitStop] /\
  ticks w = 0%nat /\
  ControlPanel.isMonitoring (panel w') = false /\
  ticks w' = 1%nat /\
  drawn (env w') = 3%nat /\
  MetricsDisplay.timestamp (MetricsDisplay.metrics (display w')) = 1000%Z /\
  MetricsDisplay.metrics (display w') <> MetricsDisplay.metrics (display w).
Proof.
  cbn zeta. repeat split. vm_compute. discriminate.
Qed.

(** C9. [hasData] is set by [startMonitoring] itself, before any reading
    exists, and no handler clears it: after a start, whatever buttons are
    clicked next, [hasData] is still set and the value bound to the [disable]
    attribute of the statistics button is false.  On a page where only
    clicks happen after the start, no tick has run and the display still
    shows its initial metrics, and [hasData] is set all the same. *)
Theorem hasData_latches
    (p : ControlPanel.Refs) (bs : list ControlPanel.Button)
    (rnd : nat -> Q) (t0 : Z) :
  let p' := fst (ControlPanel.clicks bs (fst (ControlPanel.startMonitoring p))) in
  let w := interact (map Click (ControlPanel.StartButton :: bs))
             (mount (boot rnd t0)) in
  ControlPanel.hasData (fst (ControlPanel.startMonitoring p)) = true /\
  ControlPanel.hasData p' = true /\
  ControlPanel.disable ControlPanel.StatisticsButton p' = false /\
  ControlPanel.hasData (panel w) = true /\
  ticks w = 0%nat /\
  MetricsDisplay.metrics (display w)
  = MetricsDisplay.metrics (display (boot rnd t0)).
Proof.
  cbn zeta.
  assert (H : ControlPanel.hasData
                (fst (ControlPanel.clicks bs
                        (fst (ControlPanel.startMonitoring p)))) = true).
  { apply hasData_kept_clicks. reflexivity. }
  split; [reflexivity |]. split; [exact H |].
  split; [cbn [ControlPanel.disable]; rewrite H; reflexivity |].
  destruct (clicks_frame (ControlPanel.StartButton :: bs) (mount (boot rnd t0)))
    as (He & Hd & Hp).
  destruct (mount_boot_facts rnd t0) as (_ & _ & Hn & Hdisp & _). cbn zeta in *.
  split; [| split].
  - rewrite Hp.
    rewrite (clicks_app [ControlPanel.StartButton] bs).
    apply hasData_kept_clicks. reflexivity.
  - unfold ticks. rewrite He, Hn. reflexivity.
  - rewrite Hd, Hdisp. reflexivity.
Qed.

End Page.

(* ===================================================================== *)
(** * Further properties of the store and of the composable               *)
(* ===================================================================== *)

Section StoreRuns.
Import SensorStore UseSensorMonitor Runs.

Lemma addReading_last (r : SensorReading) (s : Store) :
  last (readings (addReading r s)) = Some r.
Proof.
  unfold addReading, shift. cbn [readings]. rewrite length_app. cbn [length].
  destruct (Nat.ltb_spec 100 (length (readings s) + 1)) as [Hgt | Hle].
  - rewrite drop_app_le by lia. apply last_snoc.
  - apply last_snoc.
Qed.

(** X1. The latest reading of the store is always the one added last:
    right after [addReading r], whatever the store held -- empty, full, or
    even over its capacity -- [latestReading] is [r]. *)
Theorem latest_is_last_added (r : SensorReading) (s : Store) :
  latestReading (addReading r s) = Some r.
Proof. apply addReading_last. Qed.

(** X2. How the count moves: below 100 readings a push adds one; from 100
    on the count stays where it is, since one reading is pushed and one is
    shifted out.  In particular a store that already holds more than 100
    readings is not cut back to 100. *)
Theorem count_after_push (r : SensorReading) (s : Store) :
  readingCount (addReading r s)
  = if (readingCount s <? 100)%nat then S (readingCount s) else readingCount s.
Proof.
  unfold readingCount, addReading, shift. cbn [readings].
  rewrite length_app. cbn [length].
  destruct (Nat.ltb_spec 100 (length (readings s) + 1)) as [Hgt | Hle];
    destruct (Nat.ltb_spec (length (readings s)) 100) as [Hlt | Hge]; try lia.
  - rewrite length_drop, length_app. cbn [length]. lia.
  - rewrite length_app. cbn [length]. lia.
Qed.

(** X3. After [n] readings pushed into the empty store the count is the
    smaller of [n] and 100: it grows by one per reading up to 100 and then
    stays there. *)
Theorem count_after_pushes (rs : list SensorReading) :
  readingCount (addReadings rs init) = Nat.min (length rs) 100.
Proof.
  unfold readingCount. rewrite addReadings_init, length_drop. lia.
Qed.

(** X4. After any readings pushed into the empty store, the latest reading
    is the last one pushed, and it is undefined ([None]) when none was. *)
Theorem latest_after_pushes (rs : list SensorReading) :
  latestReading (addReadings rs init) = last rs.
Proof.
  destruct rs as [| r0 rs0] using rev_ind; [reflexivity |].
  rewrite addReadings_snoc. unfold latestReading.
  rewrite addReading_last, last_snoc. reflexivity.
Qed.

Lemma Sorted_drop {A : Type} (R : A -> A -> Prop) (n : nat) (l : list A) :
  Sorted R l -> Sorted R (drop n l).
Proof.
  revert l. induction n as [| n IH]; intros l H; [exact H |].
  destruct l as [| x l]; [exact H |].
  cbn [drop skipn]. apply IH. inversion H; assumption.
Qed.

(** X5. The buffer keeps the order of arrival: when the readings arrive
    with non-decreasing timestamps, the timestamps of the buffer are
    non-decreasing too. *)
Theorem buffer_keeps_timestamp_order (rs : list SensorReading) :
  Sorted Z.le (map timestamp rs) ->
  Sorted Z.le (map timestamp (readings (addReadings rs init))).
Proof.
  intros H. rewrite addReadings_init.
  rewrite <- skipn_map. apply Sorted_drop, H.
Qed.

Lemma buffer_keeps_timestamp_order_witness :
  Sorted Z.le (map timestamp (readings (addReadings (map sample (seq 0 3)) init))).
Proof.
  apply (buffer_keeps_timestamp_order (map sample (seq 0 3))).
  cbn. repeat constructor; lia.
Defined.

Lemma addReadings_same_readings (rs : list SensorReading) (s1 s2 : Store) :
  readings s1 = readings s2 ->
  readings (addReadings rs s1) = readings (addReadings rs s2).
Proof.
  revert s1 s2. induction rs as [| r rs IH]; intros s1 s2 H; [exact H |].
  cbn [addReadings foldl]. apply IH.
  unfold addReading. cbn [readings]. rewrite H. reflexivity.
Qed.

Lemma calls_readings (cs : list Call) (s : Store) :
  readings (calls cs s) = readings (addReadings (payloads cs) s).
Proof.
  revert s. induction cs as [| c cs IH]; intros s; [reflexivity |].
  cbn [calls foldl]. fold (calls cs (call s c)). rewrite IH.
  destruct c as [[| e] | [| e] | r]; cbn [call payloads flat_map app fst
    UseSensorMonitor.startMonitoring UseSensorMonitor.stopMonitoring onSensorData];
    try reflexivity.
  - apply addReadings_same_readings. reflexivity.
  - apply addReadings_same_readings. reflexivity.
Qed.

(** X6. Over a whole session of the composable -- starts and stops whose
    backend command resolves or rejects, and ["sensor-data"] events, in any
    order -- the store holds the last 100 readings delivered, in order.  A
    reading is recorded whether the store is monitoring or not, and no start
    or stop ever removes one. *)
Theorem session_keeps_last_readings (cs : list Call) :
  readings (calls cs init)
  = drop (length (payloads cs) - 100) (payloads cs).
Proof. rewrite calls_readings. apply addReadings_init. Qed.

Lemma calls_snoc (cs : list Call) (c : Call) (s : Store) :
  calls (cs ++ [c]) s = call (calls cs s) c.
Proof. unfold calls. rewrite foldl_app. reflexivity. Qed.

(** X7. The monitoring flag of the store follows the last start or stop
    whose backend command resolved: a resolved start sets it, a resolved
    stop clears it, and a rejected command or a ["sensor-data"] event leaves
    it as it was. *)
Theorem session_monitoring_flag (cs : list Call) (c : Call) (s : Store) :
  isMonitoring (calls (cs ++ [c]) s)
  = match c with
    | CallStart Resolved => true
    | CallStop Resolved => false
    | CallStart (Rejected _) | CallStop (Rejected _) | SensorData _ =>
        isMonitoring (calls cs s)
    end.
Proof.
  rewrite calls_snoc. destruct c as [[| e] | [| e] | r]; reflexivity.
Qed.

End StoreRuns.

(* ===================================================================== *)
(** * Further properties of the control panel                             *)
(* ===================================================================== *)

Section PanelRuns.
Import ControlPanel Runs.

Lemma clicks_cons (b : Button) (bs : list Button) (p : Refs) :
  fst (clicks (b :: bs) p) = fst (clicks bs (fst (onClick b p))) /\
  snd (clicks (b :: bs) p) = snd (onClick b p) ++ snd (clicks bs (fst (onClick b p))).
Proof.
  cbn [clicks]. destruct (onClick b p) as [p1 out1]. cbn [fst snd].
  destruct (clicks bs p1) as [p2 out2]. split; reflexivity.
Qed.

(** X8. The panel never swallows a click: whatever its state, a sequence
    of clicks emits exactly one event per click -- the one of the button --
    in the order of the clicks.  A start clicked while monitoring and a
    statistics request without data are emitted like any other. *)
Theorem clicks_emit_in_order (bs : list Button) (p : Refs) :
  snd (clicks bs p) = map emitOf bs.
Proof.
  revert p. induction bs as [| b bs IH]; intros p; [reflexivity |].
  destruct (clicks_cons b bs p) as [_ ->]. rewrite IH.
  destruct b; reflexivity.
Qed.

(** X9. [hasData] records that a start was ever clicked, nothing else:
    after any clicks it is set exactly when it was set before or one of the
    clicks was a start.  From the initial panel it is set if and only if
    the start button was clicked at least once. *)
Theorem hasData_means_started (bs : list Button) (p : Refs) :
  hasData (fst (clicks bs p)) = hasData p || existsb isStart bs /\
  hasData (fst (clicks bs setup)) = existsb isStart bs.
Proof.
  assert (H : forall q, hasData (fst (clicks bs q)) = hasData q || existsb isStart bs).
  { induction bs as [| b bs IH]; intros q.
    - cbn. rewrite orb_false_r. reflexivity.
    - destruct (clicks_cons b bs q) as [-> _]. rewrite IH.
      destruct b; cbn; destruct (hasData q); reflexivity. }
  split; [apply H | rewrite H; reflexivity].
Qed.

(** X10. Requests for statistics never change the panel: the refs after a
    sequence of clicks are those after the same sequence with the clicks on
    the statistics button left out. *)
Theorem statistics_clicks_change_nothing (bs : list Button) (p : Refs) :
  fst (clicks bs p)
  = fst (clicks (List.filter (fun b => negb (isStatistics b)) bs) p).
Proof.
  revert p. induction bs as [| b bs IH]; intros p; [reflexivity |].
  destruct (clicks_cons b bs p) as [-> _]. rewrite IH.
  destruct b; cbn [List.filter isStatistics negb].
  - destruct (clicks_cons StartButton
                (List.filter (fun b => negb (isStatistics b)) bs) p) as [-> _].
    reflexivity.
  - destruct (clicks_cons StopButton
                (List.filter (fun b => negb (isStatistics b)) bs) p) as [-> _].
    reflexivity.
  - reflexivity.
Qed.

(** X11. The panel is monitoring exactly when the last click on start or
    stop was a start: [isMonitoring] after a sequence of clicks is decided
    by the last click that is not a statistics request, and is unchanged
    when there is none. *)
Theorem isMonitoring_follows_last_toggle (bs : list Button) (p : Refs) :
  isMonitoring (fst (clicks bs p))
  = match last (List.filter (fun b => negb (isStatistics b)) bs) with
    | Some b => isStart b
    | None => isMonitoring p
    end.
Proof.
  induction bs as [| b bs IH] using rev_ind; [reflexivity |].
  rewrite clicks_app, List.filter_app.
  destruct (clicks_cons b [] (fst (clicks bs p))) as [-> _]. cbn [clicks fst].
  destruct b; cbn [List.filter isStatistics negb].
  - rewrite last_snoc. reflexivity.
  - rewrite last_snoc. reflexivity.
  - rewrite app_nil_r. exact IH.
Qed.

End PanelRuns.

(* ===================================================================== *)
(** * Further properties of the page                                      *)
(* ===================================================================== *)

Section PageRuns.
Import Browser App Runs.

Lemma mount_boot_ticked (rnd : nat -> Q) (t0 : Z) :
  ticked rnd t0 0 (mount (boot rnd t0)).
Proof. unfold ticked. cbn. repeat split; try lia. Qed.

Lemma tick_ticked (rnd : nat -> Q) (t0 : Z) (k : nat) (w : World) :
  ticked rnd t0 k w ->
  ticked rnd t0 (S k) (tick 1 (t0 + 1000 * (Z.of_nat k + 1)) w).
Proof.
  intros (Ht & Hd & Hc & Hr & Hm).
  unfold ticked, tick, fire, on_display, MetricsDisplay.updateMetrics,
    bind, Math_random, Date_now, ret, with_env, set_timers, set_clock.
  cbn [env display timers drawn clock random fst snd
       MetricsDisplay.metrics MetricsDisplay.updateInterval].
  rewrite Z.max_r by lia. rewrite Hr, Hd.
  split; [unfold display_timer; do 2 f_equal; lia |].
  split; [lia |]. split; [lia |]. split; [reflexivity |].
  unfold metrics_at.
  replace (S (3 * k)) with (3 * k + 1)%nat by lia.
  replace (S (3 * k + 1)) with (3 * k + 2)%nat by lia.
  f_equal. lia.
Qed.

Lemma run_due_ticked (rnd : nat -> Q) (t0 : Z) (j : nat) :
  forall (fuel : nat) (target : Z) (k : nat) (w : World),
  ticked rnd t0 k w ->
  Z.to_nat ((target - (t0 + 1000 * (Z.of_nat k + 1))) / 1000 + 1) = j ->
  (j <= fuel)%nat ->
  ticked rnd t0 (k + j) (run_due fuel target w) /\
  MetricsDisplay.updateInterval (display (run_due fuel target w))
  = MetricsDisplay.updateInterval (display w).
Proof.
  induction j as [| j IH]; intros fuel target k w Hw Hj Hfuel.
  - destruct Hw as (Ht & Hrest).
    assert (Hlt : (target < t0 + 1000 * (Z.of_nat k + 1))%Z).
    { assert ((target - (t0 + 1000 * (Z.of_nat k + 1))) / 1000 + 1 <= 0)%Z by lia.
      Z.div_mod_to_equations. lia. }
    rewrite (run_due_idle fuel target 1 _ w Ht Hlt), Nat.add_0_r.
    split; [split; assumption | reflexivity].
  - destruct fuel as [| fuel]; [lia |].
    pose proof Hw as (Ht & _).
    assert (Hle : (t0 + 1000 * (Z.of_nat k + 1) <= target)%Z).
    { assert (1 <= (target - (t0 + 1000 * (Z.of_nat k + 1))) / 1000 + 1)%Z by lia.
      Z.div_mod_to_equations. lia. }
    rewrite (run_due_fires fuel target 1 _ w Ht Hle).
    pose proof (tick_ticked rnd t0 k w Hw) as Hw'.
    assert (Hj' : Z.to_nat ((target - (t0 + 1000 * (Z.of_nat (S k) + 1))) / 1000 + 1) = j).
    { replace (target - (t0 + 1000 * (Z.of_nat (S k) + 1)))%Z
        with (target - (t0 + 1000 * (Z.of_nat k + 1)) + (-1) * 1000)%Z by lia.
      rewrite Z.div_add by lia. lia. }
    destruct (IH fuel target (S k) _ Hw' Hj' ltac:(lia)) as [I1 I2].
    replace (k + S j)%nat with (S k + j)%nat by lia.
    split; [exact I1 |]. rewrite I2. reflexivity.
Qed.

Lemma elapse_ticked (rnd : nat -> Q) (t0 ms : Z) (k : nat) (w : World) :
  ticked rnd t0 k w ->
  exists k' : nat,
    ticked rnd t0 k' (elapse ms w) /\
    clock (env (elapse ms w)) = (clock (env w) + Z.max 0 ms)%Z.
Proof.
  intros Hw. pose proof Hw as (Ht & _ & Hc & _).
  unfold elapse. set (target := (clock (env w) + Z.max 0 ms)%Z).
  set (j := Z.to_nat ((target - (t0 + 1000 * (Z.of_nat k + 1))) / 1000 + 1)).
  assert (Hp : pending target (timers (env w)) = j).
  { rewrite Ht. unfold pending, display_timer. cbn. lia. }
  rewrite Hp.
  destruct (run_due_ticked rnd t0 j j target k w Hw eq_refl (le_n j))
    as [(Rt & Rd & Rc & Rr & Rm) _].
  exists (k + j)%nat. split; [| reflexivity].
  unfold ticked, with_env, set_clock.
  cbn [env display timers drawn clock random].
  split; [exact Rt |]. split; [exact Rd |]. split; [| split; assumption].
  assert (Htc : (clock (env w) <= target)%Z) by (unfold target; lia).
  subst j. clearbody target. clear Hp Rt Rd Rc Rr Rm.
  destruct (Z.le_gt_cases (t0 + 1000 * (Z.of_nat k + 1)) target) as [Hle | Hgt].
  - rewrite Nat2Z.inj_add, Z2Nat.id by (Z.div_mod_to_equations; lia).
    Z.div_mod_to_equations. lia.
  - assert (E : Z.to_nat ((target - (t0 + 1000 * (Z.of_nat k + 1))) / 1000 + 1) = 0%nat).
    { assert ((target - (t0 + 1000 * (Z.of_nat k + 1))) / 1000 + 1 <= 0)%Z
        by (Z.div_mod_to_equations; lia). lia. }
    rewrite E, Nat.add_0_r. lia.
Qed.

Lemma interact_ticked (rnd : nat -> Q) (t0 : Z) (acts : list Action) :
  forall (k : nat) (w : World),
  ticked rnd t0 k w ->
  exists k' : nat,
    ticked rnd t0 k' (interact acts w) /\
    clock (env (interact acts w)) = (clock (env w) + waited acts)%Z.
Proof.
  induction acts as [| a acts IH]; intros k w Hw.
  - exists k. split; [exact Hw | cbn; lia].
  - cbn [interact foldl]. fold (interact acts (step w a)).
    destruct a as [b | ms].
    + destruct (click_frame b w) as (Ce & Cd & _).
      assert (Hs : ticked rnd t0 k (step w (Click b))).
      { unfold ticked. rewrite Ce, Cd. exact Hw. }
      destruct (IH k _ Hs) as (k' & Hk' & Hc).
      exists k'. split; [exact Hk' |]. rewrite Hc, Ce. reflexivity.
    + destruct (elapse_ticked rnd t0 ms k w Hw) as (k1 & Hk1 & Hc1).
      destruct (IH k1 _ Hk1) as (k' & Hk' & Hc).
      exists k'. split; [exact Hk' |]. cbn [step waited foldr].
      fold (waited acts). rewrite Hc, Hc1. lia.
Qed.

(** The state of a page mounted at [t0] after any run: the number of ticks
    is the number of full seconds waited, and the display shows the metrics
    of that many ticks. *)
Lemma mounted_page_after (rnd : nat -> Q) (t0 : Z) (acts : list Action) :
  let w := interact acts (mount (boot rnd t0)) in
  ticked rnd t0 (Z.to_nat (waited acts / 1000)) w /\
  clock (env w) = (t0 + waited acts)%Z.
Proof.
  cbn zeta.
  destruct (interact_ticked rnd t0 acts 0 _ (mount_boot_ticked rnd t0))
    as (k & Hk & Hc).
  change (clock (env (mount (boot rnd t0)))) with t0 in Hc.
  split; [| exact Hc].
  assert (E : Z.to_nat (waited acts / 1000) = k).
  { destruct Hk as (_ & _ & Hb & _). rewrite Hc in Hb.
    assert (waited acts / 1000 = Z.of_nat k)%Z by (Z.div_mod_to_equations; lia).
    lia. }
  rewrite E. exact Hk.
Qed.

(** X12. On a mounted page the ticks follow the clock alone: after any
    run of clicks and waits, the number of ticks that have run is the number
    of full seconds waited in total, however the time was split into waits
    and whatever was clicked in between -- starts and stops included. *)
Theorem ticks_follow_total_wait (rnd : nat -> Q) (t0 : Z) (acts : list Action) :
  let w := interact acts (mount (boot rnd t0)) in
  ticks w = Z.to_nat (waited acts / 1000) /\
  clock (env w) = (t0 + waited acts)%Z.
Proof.
  cbn zeta. destruct (mounted_page_after rnd t0 acts) as ((_ & Hd & _) & Hc).
  split; [| exact Hc]. unfold ticks. rewrite Hd.
  rewrite Nat.mul_comm. apply Nat.div_mul. discriminate.
Qed.

(** X13. What the display shows after any run on a mounted page: before
    the first full second, the initial metrics; afterwards, the metrics of
    the last tick [k], generated from the draws of index [3k-3], [3k-2] and
    [3k-1] of the random source -- three draws per tick, none skipped -- by
    the products and sums of doubles of [updateMetrics], and stamped with
    the instant of that tick, [t0 + 1000 k]. *)
Theorem displayed_metrics_from_draws (rnd : nat -> Q) (t0 : Z) (acts : list Action) :
  let w := interact acts (mount (boot rnd t0)) in
  let k := Z.to_nat (waited acts / 1000) in
  MetricsDisplay.metrics (display w) = metrics_at rnd t0 k /\
  MetricsDisplay.timestamp (MetricsDisplay.metrics (display w))
  = (t0 + 1000 * Z.of_nat k)%Z /\
  (MetricsDisplay.timestamp (MetricsDisplay.metrics (display w)) <= clock (env w))%Z.
Proof.
  cbn zeta.
  destruct (mounted_page_after rnd t0 acts) as ((_ & _ & Hb & _ & Hm) & Hc).
  assert (Hts : MetricsDisplay.timestamp
                  (metrics_at rnd t0 (Z.to_nat (waited acts / 1000)))
                = (t0 + 1000 * Z.of_nat (Z.to_nat (waited acts / 1000)))%Z).
  { destruct (Z.to_nat (waited acts / 1000)); cbn [metrics_at MetricsDisplay.timestamp]; lia. }
  rewrite Hm. split; [reflexivity |]. split; [exact Hts |]. rewrite Hts. lia.
Qed.

Lemma metrics_at_in_range (rnd : nat -> Q) (t0 : Z) (k : nat) :
  unit_interval rnd -> in_range (metrics_at rnd t0 k).
Proof.
  intros Hrnd. destruct k as [| j]; unfold in_range, metrics_at;
    cbn [MetricsDisplay.laserIntensity MetricsDisplay.temperature
         MetricsDisplay.measurementRate].
  - repeat split; lra.
  - destruct (Hrnd (3 * j)%nat) as (Had & Ha0 & Ha1).
    destruct (Hrnd (3 * j + 1)%nat) as (_ & Hb0 & Hb1).
    destruct (Hrnd (3 * j + 2)%nat) as (_ & Hc0 & Hc1).
    pose proof (floor_percent _ Had Ha0 Ha1) as [Hf0 Hf1].
    split; [| split].
    + unfold Double.floor. split.
      * change 0%Q with (inject_Z 0). rewrite <- Zle_Qle. exact Hf0.
      * change 99%Q with (inject_Z 99). rewrite <- Zle_Qle. exact Hf1.
    + exact (scaled_between 25 10 _ ltac:(lia) ltac:(lia) ltac:(lia) Hb0 Hb1).
    + exact (scaled_between 5 15 _ ltac:(lia) ltac:(lia) ltac:(lia) Hc0 Hc1).
Qed.

(** X14. The display never shows a value out of range: for a random source
    whose values are doubles from 0 (included) to 1 (excluded), at every
    point of every run on a mounted page -- the initial metrics included --
    the intensity lies between 0 and 99, the temperature between 25 and 35
    and the measurement rate between 5 and 20. *)
Theorem displayed_metrics_always_in_range
    (rnd : nat -> Q) (t0 : Z) (acts : list Action) :
  unit_interval rnd ->
  in_range (MetricsDisplay.metrics (display (interact acts (mount (boot rnd t0))))).
Proof.
  intros Hrnd.
  destruct (mounted_page_after rnd t0 acts) as ((_ & _ & _ & _ & Hm) & _).
  rewrite Hm. apply metrics_at_in_range, Hrnd.
Qed.

Lemma displayed_metrics_always_in_range_witness :
  in_range (MetricsDisplay.metrics
              (display (interact [Elapse 2500; Click ControlPanel.StopButton]
                          (mount (boot half 0))))).
Proof.
  apply (displayed_metrics_always_in_range half 0
           [Elapse 2500; Click ControlPanel.StopButton]).
  intros n. split; [vm_compute; reflexivity | split; [discriminate | reflexivity]].
Defined.

Lemma run_due_panel (fuel : nat) (target : Z) (w : World) :
  panel (run_due fuel target w) = panel w /\
  emitted (run_due fuel target w) = emitted w.
Proof.
  revert w. induction fuel as [| fuel IH]; intros w; [split; reflexivity |].
  cbn [run_due]. destruct (earliest (timers (env w))) as [t |]; [| split; reflexivity].
  destruct (due t <=? target)%Z; [| split; reflexivity].
  match goal with |- context [run_due fuel target ?w1] =>
    destruct (IH w1) as [-> ->] end.
  destruct (callback t). unfold fire, on_display.
  match goal with |- context [MetricsDisplay.updateMetrics ?d ?e] =>
    destruct (MetricsDisplay.updateMetrics d e) as [d1 e1] end.
  split; reflexivity.
Qed.

(** X15. The panel and the display do not talk to each other: on any page,
    mounted or not, after any run of clicks and waits the refs of the panel
    are those the clicks alone produce, and the events emitted are those of
    the clicks alone, in order.  No tick and no passing of time changes the
    panel or emits an event. *)
Theorem panel_follows_clicks_only (acts : list Action) (w : World) :
  panel (interact acts w) = fst (ControlPanel.clicks (buttons acts) (panel w)) /\
  emitted (interact acts w) = emitted w ++ map emitOf (buttons acts).
Proof.
  revert w. induction acts as [| a acts IH]; intros w.
  - cbn. rewrite app_nil_r. split; reflexivity.
  - cbn [interact foldl]. fold (interact acts (step w a)).
    destruct (IH (step w a)) as [-> ->]. destruct a as [b | ms].
    + destruct (click_frame b w) as (_ & _ & -> & ->).
      change (buttons (Click b :: acts)) with (b :: buttons acts).
      destruct (clicks_cons b (buttons acts) (panel w)) as [-> _].
      cbn [map]. rewrite <- app_assoc. split; [reflexivity |]. f_equal.
      destruct b; reflexivity.
    + change (buttons (Elapse ms :: acts)) with (buttons acts).
      cbn [step]. unfold elapse.
      cbn [with_env panel emitted].
      match goal with |- context [run_due ?f ?t w] =>
        destruct (run_due_panel f t w) as [-> ->] end.
      split; reflexivity.
Qed.

Lemma filter_fresh_handle (h : Z) (ts : list Timer) :
  Forall (fun t => handle t <> h) ts ->
  List.filter (fun t => negb (handle t =? h)%Z) ts = ts.
Proof.
  induction 1 as [| t ts Ht _ IH]; [reflexivity |].
  cbn [List.filter]. destruct (Z.eqb_spec (handle t) h) as [E | _]; [contradiction |].
  cbn [negb]. rewrite IH. reflexivity.
Qed.

(** X16. Unmounting undoes mounting: on a page whose timers all have a
    handle other than the next one to be given out, [onMounted] followed by
    [onUnmounted] leaves the table of timers as it was -- the timer of the
    display is removed, and no other timer is -- and the clock, the random
    source and the metrics shown are untouched. *)
Theorem unmount_undoes_mount (w : World) :
  Forall (fun t => handle t <> nextHandle (env w)) (timers (env w)) ->
  timers (env (unmount (mount w))) = timers (env w) /\
  clock (env (unmount (mount w))) = clock (env w) /\
  drawn (env (unmount (mount w))) = drawn (env w) /\
  MetricsDisplay.metrics (display (unmount (mount w)))
  = MetricsDisplay.metrics (display w).
Proof.
  intros Hfresh.
  unfold unmount, mount, on_display, MetricsDisplay.onMounted,
    MetricsDisplay.onUnmounted, bind, setInterval, clearInterval, ret.
  cbn. rewrite List.filter_app. cbn. rewrite Z.eqb_refl. cbn.
  rewrite app_nil_r, filter_fresh_handle by exact Hfresh.
  repeat split.
Qed.

Lemma unmount_undoes_mount_witness :
  timers (env (unmount (mount (mount (boot half 0)))))
  = timers (env (mount (boot half 0))).
Proof.
  apply (unmount_undoes_mount (mount (boot half 0))).
  cbn. repeat constructor. discriminate.
Defined.

Lemma filter_twice {A : Type} (f : A -> bool) (l : list A) :
  List.filter f (List.filter f l) = List.filter f l.
Proof.
  induction l as [| x l IH]; [reflexivity |].
  cbn [List.filter]. destruct (f x) eqn:E; [| exact IH].
  cbn [List.filter]. rewrite E, IH. reflexivity.
Qed.

(** X17. Unmounting is safe to repeat and safe without a mount: a second
    [onUnmounted] changes nothing, and on a display that was never mounted
    ([updateInterval] still undefined) [onUnmounted] changes nothing at
    all. *)
Theorem unmount_idempotent (w : World) (rnd : nat -> Q) (t0 : Z) :
  unmount (unmount w) = unmount w /\
  unmount (boot rnd t0) = boot rnd t0.
Proof.
  split; [| reflexivity].
  unfold unmount, on_display, MetricsDisplay.onUnmounted, bind, clearInterval, ret.
  cbn. destruct (MetricsDisplay.updateInterval (display w)) as [h |]; cbn.
  - rewrite filter_twice. reflexivity.
  - reflexivity.
Qed.

End PageRuns.
